(** * The downstream sync engine of wpt-sync (sync/downstream.py)

    A shallow embedding of [sync/downstream.py]: the intake of a new
    pull request, the CI status reactor, the orchestrator [update_sync],
    the commit translator [wpt_to_gecko_commits] and the routing
    classifier [choose_bug_component], together with the properties the
    specification states about them. *)

From Stdlib Require Import ZArith Ascii String List Lia Permutation.
From stdpp Require Import base option list gmap strings pretty fin_maps fin_sets sorting.

Local Open Scope string_scope.

(** ** Python string primitives used by the module *)

Module PyStr.

(** The line feed, ["\n"] in the source. *)
Definition nl : string := String (ascii_of_nat 10) EmptyString.

(** [s.startswith(p)]. *)
Fixpoint startswith (p s : string) : bool :=
  match p, s with
  | EmptyString, _ => true
  | String a p', String b s' => if decide (a = b) then startswith p' s' else false
  | String _ _, EmptyString => false
  end.

(** [s.endswith(p)]: [p] is the text of the last [len(p)] characters. *)
Fixpoint endswith (p s : string) : bool :=
  match s with
  | EmptyString => if decide (p = EmptyString) then true else false
  | String _ s' =>
      if decide (String.length s = String.length p)
      then (if decide (s = p) then true else false)
      else if decide (String.length s < String.length p)%nat then false
      else endswith p s'
  end.

(** [s.split(sep)] for a non-empty separator: the pieces between the
    non-overlapping occurrences of [sep], scanned left to right.  [skip]
    counts the characters of a separator still to be passed over; the
    pair is the piece being read and the pieces after it. *)
Fixpoint split_go (sep : string) (skip : nat) (s : string) : string * list string :=
  match s with
  | EmptyString => (EmptyString, [])
  | String c s' =>
      match skip with
      | S k => split_go sep k s'
      | O =>
          if startswith sep s
          then (EmptyString,
                let '(p, r) := split_go sep (String.length sep - 1) s' in p :: r)
          else let '(p, r) := split_go sep 0 s' in (String c p, r)
      end
  end.

Definition split (sep s : string) : list string :=
  let '(p, r) := split_go sep 0 s in p :: r.

(** The characters [str.strip()] removes: space, tab, line feed, vertical
    tab, form feed and carriage return. *)
Definition isspace (c : ascii) : bool :=
  let n := nat_of_ascii c in
  (Nat.eqb n 32 || (Nat.leb 9 n && Nat.leb n 13))%bool.

Fixpoint lstrip (s : string) : string :=
  match s with
  | EmptyString => EmptyString
  | String c s' => if isspace c then lstrip s' else s
  end.

Fixpoint rstrip (s : string) : string :=
  match s with
  | EmptyString => EmptyString
  | String c s' =>
      match rstrip s' with
      | EmptyString => if isspace c then EmptyString else String c EmptyString
      | r => String c r
      end
  end.

Definition strip (s : string) : string := rstrip (lstrip s).

(** [sep.join(l)]. *)
Fixpoint join (sep : string) (l : list string) : string :=
  match l with
  | [] => EmptyString
  | [x] => x
  | x :: r => x ++ sep ++ join sep r
  end.

(** [os.path.basename(p)] on a POSIX system: what follows the last slash. *)
Definition basename (p : string) : string := List.last (split "/" p) EmptyString.

(** [os.path.join(a, b)] on a POSIX system, two arguments. *)
Definition path_join (a b : string) : string :=
  if startswith "/" b then b
  else if decide (a = EmptyString) then b
  else if endswith "/" a then a ++ b
  else a ++ "/" ++ b.

End PyStr.

(** ** Data model *)

(** [git.GitCommandError(command, status, stderr, stdout)]. *)
Record GitCommandError := {
  gce_command : list string;
  gce_status : Z;
  gce_stderr : string;
  gce_stdout : string;
}.

(** The exceptions that cross a function boundary of the module. *)
Inductive exn :=
  | EGitCommandError (e : GitCommandError)
  | EAssertionError
  | EAttributeError
  | EIndexError
  | EStateStoreFailure.

Inductive result (A : Type) :=
  | Ok (a : A)
  | Raise (e : exn).
Arguments Ok {A} a.
Arguments Raise {A} e.

(** What a git command gives back: a value or a [GitCommandError]. *)
Inductive git_result (A : Type) :=
  | GitOk (a : A)
  | GitFailed (e : GitCommandError).
Arguments GitOk {A} a.
Arguments GitFailed {A} e.

(** The values [update_sync] hands to its caller. *)
Inductive pyval :=
  | PyNone
  | PyBool (b : bool).

(** [config["gecko"]["path"]["wpt"]] and [config["gecko"]["refs"]["central"]]. *)
Record Config := {
  gecko_path_wpt : string;
  gecko_refs_central : string;
}.

Record Commit := { hexsha : string }.

(** A [git.Repo] object: the two clones, or a worktree at a directory. *)
Inductive Repo :=
  | GitWpt
  | GitGecko
  | Worktree (working_dir : string).

Definition working_dir (r : Repo) : string :=
  match r with
  | GitWpt => "web-platform-tests"
  | GitGecko => "gecko"
  | Worktree d => d
  end.

Inductive SyncDirection := downstream | upstream.

(** A row of [model.Sync]; the pull request number is its key. *)
Record Sync := {
  direction : SyncDirection;
  repository : string;
  bug : option nat;
  wpt_worktree : option string;
  gecko_worktree : option string;
}.

(** A bug as [bz.new] files it. *)
Record Bug := {
  summary : string;
  description : string;
  product : string;
  component : string;
}.

(** The CI status notification. *)
Record StatusEvent := {
  context : string;
  state : string;
  sha : string;
}.

(** The pull-request notification, [body["payload"]["pull_request"]]. *)
Record PullRequestEvent := {
  number : Z;
  title : string;
  pr_body : string;
}.

Inductive LogLevel := Info | Error.

(** Calls to collaborators and to the orchestrator, in the order made. *)
Inductive Call :=
  | CallUpdateSync (pr : Z)
  | CallShow (c : Commit)
  | CallAm (c : Commit) (directory : string) (patch : string)
  | CallFileInfo (args : list string).

(** What [choose_bug_component] returns: the [default] object it was
    given, or the list [component.split(" :: ")]. *)
Inductive Routing (D : Type) :=
  | Default (d : D)
  | Split (parts : list string).
Arguments Default {D} d.
Arguments Split {D} parts.

(** ** The world the module acts on

    [G] is the state of everything the module reaches only through its
    collaborators: the two clones and their worktrees, the remotes, the
    build tool.  The session rows, the tracker and the log are explicit. *)

Record World (G : Type) := mkWorld {
  ext : G;
  (** rows as the open session sees them, keyed by pull request number *)
  session : gmap Z Sync;
  (** rows as last committed *)
  db : gmap Z Sync;
  (** bugs filed by [bz.new]; a bug is referred to by its position *)
  bz_bugs : list Bug;
  (** [bz.comment(bug, text)], oldest first *)
  bz_comments : list (option nat * string);
  (** [bz.set_component(bug, *args)], oldest first *)
  bz_components : list (option nat * list string);
  logged : list (LogLevel * string);
  calls : list Call;
}.
Arguments mkWorld {G}.
Arguments ext {G}.
Arguments session {G}.
Arguments db {G}.
Arguments bz_bugs {G}.
Arguments bz_comments {G}.
Arguments bz_components {G}.
Arguments logged {G}.
Arguments calls {G}.

(** The capabilities the module consumes.  A git command either succeeds
    or raises [GitCommandError]; [git show], [iter_commits], [heads],
    [active_branch] and [is_dirty] only read the repositories. *)
Class Collaborators (G : Type) := {
  git_fetch : Repo -> list string -> G -> git_result unit * G;
  git_merge : Repo -> string -> G -> git_result unit * G;
  index_reset : Repo -> string -> G -> git_result unit * G;
  git_reset_hard : Repo -> string -> G -> git_result unit * G;
  git_add : Repo -> string -> G -> git_result unit * G;
  git_commit : Repo -> string -> G -> git_result unit * G;
  git_show : Repo -> Commit -> G -> git_result string;
  (** [git am --directory=d -] fed a patch: the process's return code,
      stdout and stderr *)
  git_am : Repo -> string -> string -> G -> git_result (Z * string * string) * G;
  (** [repo.iter_commits(rev, reverse=True)]: oldest first *)
  iter_commits : Repo -> string -> G -> list Commit;
  active_branch_name : Repo -> G -> string;
  (** [repo.heads]: branch name to the hexsha of its commit *)
  repo_heads : Repo -> G -> gmap string string;
  (** the truth value of [repo.is_dirty] as line 61 reads it, without a
      call *)
  is_dirty : Repo -> G -> bool;
  (** [worktree.ensure_worktree(config, session, repo, name, sync, branch, ref)]:
      may record the worktree on the sync's row *)
  ensure_worktree :
    Repo -> string -> Z -> string -> string ->
    gmap Z Sync -> G -> git_result (Repo * string) * gmap Z Sync * G;
  mach_wpt_manifest_update : string -> G -> G;
  (** [Mach(dir).file_info] on its arguments *)
  mach_file_info : string -> list string -> G -> string;
  (** [WPT(dir).files_changed()] *)
  wpt_files_changed : string -> G -> string;
  (** [str(e)] for a [GitCommandError] *)
  gce_str : GitCommandError -> string;
  (** whether [session.commit()] goes through *)
  db_commit_ok : G -> bool;
  (** iteration order of a [dict]'s items and of a [set]: unspecified,
      every element once *)
  dict_items : gmap string nat -> list (string * nat);
  dict_items_perm : forall m, dict_items m ≡ₚ map_to_list m;
  set_iter : gset string -> list string;
  set_iter_perm : forall s, set_iter s ≡ₚ elements s;
}.

Section Downstream.

Context {G : Type} `{!Collaborators G}.

(** *** State and exception monad *)

Definition M (A : Type) : Type := World G -> result A * World G.

Definition ret {A} (a : A) : M A := fun w => (Ok a, w).

Definition bind {A B} (m : M A) (k : A -> M B) : M B :=
  fun w => match m w with
           | (Ok a, w') => k a w'
           | (Raise e, w') => (Raise e, w')
           end.

Definition raise {A} (e : exn) : M A := fun w => (Raise e, w).

Notation "'do' x <- m ; k" := (bind m (fun x => k))
  (at level 10, x pattern, m at level 100, k at level 200).
Notation "m ;; k" := (bind m (fun _ => k))
  (at level 100, k at level 200, right associativity).

(** [try: body except git.GitCommandError as e: handler]. *)
Definition try_except {A} (body : M A) (handler : GitCommandError -> M A) : M A :=
  fun w => match body w with
           | (Raise (EGitCommandError e), w') => handler e w'
           | r => r
           end.

(** [assert b]. *)
Definition py_assert (b : bool) : M unit :=
  if b then ret tt else raise EAssertionError.

Definition set_ext (g : G) (w : World G) : World G :=
  mkWorld g (session w) (db w) (bz_bugs w) (bz_comments w) (bz_components w)
          (logged w) (calls w).

Definition set_session (s : gmap Z Sync) (w : World G) : World G :=
  mkWorld (ext w) s (db w) (bz_bugs w) (bz_comments w) (bz_components w)
          (logged w) (calls w).

Definition set_db (s : gmap Z Sync) (w : World G) : World G :=
  mkWorld (ext w) (session w) s (bz_bugs w) (bz_comments w) (bz_components w)
          (logged w) (calls w).

(** A command of a git collaborator: runs on [ext], raises on failure. *)
Definition git_cmd {A} (f : G -> git_result A * G) : M A :=
  fun w => match f (ext w) with
           | (GitOk a, g) => (Ok a, set_ext g w)
           | (GitFailed e, g) => (Raise (EGitCommandError e), set_ext g w)
           end.

(** A query that reads [ext]. *)
Definition ask {A} (f : G -> A) : M A := fun w => (Ok (f (ext w)), w).

Definition record_call (c : Call) : M unit :=
  fun w => (Ok tt, mkWorld (ext w) (session w) (db w) (bz_bugs w) (bz_comments w)
                           (bz_components w) (logged w) (calls w ++ [c])).

Definition logger (l : LogLevel) (msg : string) : M unit :=
  fun w => (Ok tt, mkWorld (ext w) (session w) (db w) (bz_bugs w) (bz_comments w)
                           (bz_components w) (logged w ++ [(l, msg)]) (calls w)).

(** *** The tracker *)

(** [bz.new(summary, comment, product, component)]: files the bug and
    returns it. *)
Definition bz_new (b : Bug) : M nat :=
  fun w => (Ok (length (bz_bugs w)),
            mkWorld (ext w) (session w) (db w) (bz_bugs w ++ [b]) (bz_comments w)
                    (bz_components w) (logged w) (calls w)).

Definition bz_comment (b : option nat) (text : string) : M unit :=
  fun w => (Ok tt, mkWorld (ext w) (session w) (db w) (bz_bugs w)
                           (bz_comments w ++ [(b, text)])
                           (bz_components w) (logged w) (calls w)).

Definition bz_set_component (b : option nat) (args : list string) : M unit :=
  fun w => (Ok tt, mkWorld (ext w) (session w) (db w) (bz_bugs w) (bz_comments w)
                           (bz_components w ++ [(b, args)]) (logged w) (calls w)).

(** *** The state store *)

(** Modelled from the spec: [model.session_scope] is not part of the
    sources at hand.  Section 4.5 has all mutations of one invocation in
    one transaction: leaving the block commits the session; an exception
    in the block, or a commit that fails, rolls the session back to the
    committed rows and propagates.  What was done to the tracker and to
    the repositories stays done. *)
Definition session_scope {A} (body : M A) : M A :=
  fun w => match body w with
           | (Ok a, w') =>
               if db_commit_ok (ext w')
               then (Ok a, set_db (session w') w')
               else (Raise EStateStoreFailure, set_session (db w') w')
           | (Raise e, w') => (Raise e, set_session (db w') w')
           end.

(** Attribute reads on the sync object. *)
Definition sync_bug (sync : Z) : M (option nat) :=
  fun w => (Ok (session w !! sync ≫= bug), w).

Definition sync_wpt_worktree (sync : Z) : M (option string) :=
  fun w => (Ok (session w !! sync ≫= wpt_worktree), w).

Definition sync_gecko_worktree (sync : Z) : M (option string) :=
  fun w => (Ok (session w !! sync ≫= gecko_worktree), w).

(** Modelled from the spec: [session.add] of the rows of a new sync.
    Section 4.5 gives the store a uniqueness guarantee on (repository,
    change-request id, direction); a second row for the same pull request
    is refused inside the transaction. *)
Definition session_add (pr : Z) (row : Sync) : M unit :=
  fun w => match session w !! pr with
           | Some _ => (Raise EStateStoreFailure, w)
           | None => (Ok tt, set_session (<[pr := row]> (session w)) w)
           end.

Definition set_sync_bug (pr : Z) (b : nat) : M unit :=
  fun w => (Ok tt,
            set_session
              (alter (fun r => Build_Sync (direction r) (repository r) (Some b)
                                          (wpt_worktree r) (gecko_worktree r))
                     pr (session w)) w).

(** *** [new_wpt_pr] *)

Definition new_wpt_pr (body : PullRequestEvent) : M unit :=
  let pr_id := number body in
  do bug <- bz_new {| summary := "[wpt-sync] PR " ++ pretty pr_id ++ " - " ++ title body;
                      description := pr_body body;
                      product := "Testing";
                      component := "web-platform-tests" |};
  session_scope
    (session_add pr_id {| direction := downstream;
                          repository := "web-platform-tests";
                          bug := None;
                          wpt_worktree := None;
                          gecko_worktree := None |};;
     set_sync_bug pr_id bug).

(** *** [commit_manifest_update] *)

Definition commit_manifest_update (gecko_work : Repo) : M unit :=
  git_cmd (git_reset_hard gecko_work "HEAD");;
  (fun w => (Ok tt, set_ext (mach_wpt_manifest_update (working_dir gecko_work) (ext w)) w));;
  do dirty <- ask (is_dirty gecko_work);
  if (dirty : bool) then
    git_cmd (git_add gecko_work "testing/web-platform/meta");;
    do name <- ask (active_branch_name gecko_work);
    git_cmd (git_commit gecko_work
               ("[wpt-sync] downstream " ++ name ++ ": update manifest"))
  else ret tt.

(** *** [get_files_changed] *)

Definition get_files_changed (project_path : string) : M (gset string) :=
  do output <- ask (wpt_files_changed project_path);
  ret (list_to_set (PyStr.split PyStr.nl output)).

(** *** [choose_bug_component] *)

(** The loop over the lines of the report: [current] is the header last
    read, [components] the count of detail lines per header. *)
Fixpoint count_components (lines : list string) (components : gmap string nat)
    (current : option string) : result (gmap string nat) :=
  match lines with
  | [] => Ok components
  | line :: rest =>
      if PyStr.startswith " " line then
        match current with
        | None => Raise EAssertionError
        | Some c =>
            count_components rest
              (<[c := S (default 0 (components !! c))]> components) current
        end
      else count_components rest components (Some (PyStr.strip line))
  end.

(** [sorted(items, key=lambda x: -x[1])]: stable, largest count first. *)
Fixpoint insert_by_count (x : string * nat) (l : list (string * nat)) :
    list (string * nat) :=
  match l with
  | [] => [x]
  | y :: l' => if (y.2 <=? x.2)%nat then x :: l else y :: insert_by_count x l'
  end.

Definition sorted_by_count (items : list (string * nat)) : list (string * nat) :=
  foldr insert_by_count [] items.

(** [l[i]]. *)
Definition py_index {A} (l : list A) (i : nat) : M A :=
  match l !! i with
  | Some a => ret a
  | None => raise EIndexError
  end.

Definition lift_result {A} (r : result A) : M A := fun w => (r, w).

Definition choose_bug_component {D} (config : Config) (git_gecko : Repo)
    (files_changed : gset string) (default : D) : M (Routing D) :=
  if decide (files_changed = ∅) then ret (Default default)
  else
    let path_prefix := gecko_path_wpt config in
    let paths := map (PyStr.path_join path_prefix) (set_iter files_changed) in
    record_call (CallFileInfo ("bugzilla-component" :: paths));;
    do output <- ask (mach_file_info (working_dir git_gecko)
                                     ("bugzilla-component" :: paths));
    do components <- lift_result
                       (count_components (PyStr.split PyStr.nl output) ∅ None);
    if decide (components = ∅) then ret (Default default)
    else
      let components := sorted_by_count (dict_items components) in
      do first <- py_index components 0;
      do component <-
        (if decide (first.1 = "UNKNOWN" /\ (1 < length components)%nat)
         then do second <- py_index components 1; ret (second.1)
         else ret (first.1));
      if decide (component = "UNKNOWN") then ret (Default default)
      else ret (Split (PyStr.split " :: " component)).

(** *** [is_worktree_tip] *)

Definition is_worktree_tip (repo : Repo) (worktree_path : option string)
    (rev : string) (g : G) : bool :=
  match worktree_path with
  | None => false
  | Some path =>
      if decide (path = "") then false
      else
        let branch_name := PyStr.basename path in
        match repo_heads repo g !! branch_name with
        | Some commit_hexsha => bool_decide (commit_hexsha = rev)
        | None => false
        end
  end.

(** *** [get_pr] *)

Definition run_ensure_worktree (repo : Repo) (name : string) (sync : Z)
    (branch ref : string) : M (Repo * string) :=
  fun w => match ensure_worktree repo name sync branch ref (session w) (ext w) with
           | (GitOk r, s, g) => (Ok r, set_ext g (set_session s w))
           | (GitFailed e, s, g) =>
               (Raise (EGitCommandError e), set_ext g (set_session s w))
           end.

Definition get_pr (config : Config) (git_wpt : Repo) (sync : Z) :
    M (Repo * string) :=
  logger Info "Fetching web-platform-tests origin/master";;
  git_cmd (git_fetch git_wpt ["origin"; "master"; "--no-tags"]);;
  logger Info "Fetch done";;
  do work <-
    run_ensure_worktree git_wpt "web-platform-tests" sync
                        ("PR_" ++ pretty sync) "origin/master";
  let '(wpt_work, branch_name) := work in
  git_cmd (index_reset wpt_work "origin/master");;
  git_cmd (git_fetch wpt_work
             ["origin";
              "pull/" ++ pretty sync ++ "/head:heads/pull_" ++ pretty sync;
              "--no-tags"]);;
  git_cmd (git_merge wpt_work ("heads/pull_" ++ pretty sync));;
  ret (wpt_work, branch_name).

(** *** [wpt_to_gecko_commits] *)

(** How one pass through the body of the [for] loop ends. *)
Inductive loop_exit :=
  | NextIteration
  | Return (b : bool).

(** What the first [try] block leaves: [continue], or the patch. *)
Inductive rendered :=
  | SkipEmpty
  | Patch (patch : string)
  | RenderFailed.

(** [os.path.basename(sync.wpt_worktree)]; [None] has no basename. *)
Definition worktree_basename (path : option string) : M string :=
  match path with
  | Some p => ret (PyStr.basename p)
  | None => raise EAttributeError
  end.

Definition translate_commit (config : Config) (wpt_work gecko_work : Repo)
    (sync : Z) (c : Commit) : M loop_exit :=
  do r <-
    try_except
      (record_call (CallShow c);;
       do shown <- git_cmd (fun g => (git_show wpt_work c g, g));
       let patch := shown ++ PyStr.nl in
       if PyStr.endswith (PyStr.nl ++ PyStr.nl ++ PyStr.nl) patch
       then ret SkipEmpty
       else ret (Patch patch))
      (fun e =>
         logger Error ("Failed to create patch from " ++ hexsha c ++ ":"
                       ++ PyStr.nl ++ gce_str e);;
         do b <- sync_bug sync;
         bz_comment b
           ("Downstreaming from web-platform-tests failed because creating patch "
            ++ "from " ++ hexsha c ++ " failed:" ++ PyStr.nl ++ gce_str e);;
         ret RenderFailed);
  match r with
  | SkipEmpty => ret NextIteration
  | RenderFailed => ret (Return false)
  | Patch patch =>
      let directory := "--directory=" ++ gecko_path_wpt config in
      try_except
        (record_call (CallAm c directory patch);;
         do proc <- git_cmd (git_am gecko_work directory patch);
         let '(returncode, stdout, stderr) := proc in
         if decide (returncode <> 0%Z)
         then raise (EGitCommandError
                       {| gce_command := ["am"; directory; "-"];
                          gce_status := returncode;
                          gce_stderr := stderr;
                          gce_stdout := stdout |})
         else ret NextIteration)
        (fun e =>
           logger Error ("Failed to import patch downstream " ++ hexsha c
                         ++ PyStr.nl ++ PyStr.nl ++ patch
                         ++ PyStr.nl ++ PyStr.nl ++ gce_str e);;
           do b <- sync_bug sync;
           bz_comment b
             ("Downstreaming from web-platform-tests failed because applying patch "
              ++ "from " ++ hexsha c ++ " failed:" ++ PyStr.nl ++ gce_str e);;
           ret (Return false))
  end.

(** The [for] loop: the commits in order, until the body returns. *)
Fixpoint for_commits (body : Commit -> M loop_exit) (commits : list Commit) :
    M bool :=
  match commits with
  | [] => ret true
  | c :: rest =>
      do r <- body c;
      match r with
      | NextIteration => for_commits body rest
      | Return b => ret b
      end
  end.

Definition wpt_to_gecko_commits (config : Config) (wpt_work gecko_work : Repo)
    (sync : Z) : M bool :=
  do wpt_name <- ask (active_branch_name wpt_work);
  do wpt_path <- sync_wpt_worktree sync;
  do wpt_base <- worktree_basename wpt_path;
  py_assert (bool_decide (wpt_name = wpt_base));;
  do gecko_name <- ask (active_branch_name gecko_work);
  do gecko_path <- sync_gecko_worktree sync;
  do gecko_base <- worktree_basename gecko_path;
  py_assert (bool_decide (gecko_name = gecko_base));;
  do commits <- ask (iter_commits wpt_work "origin/master..");
  for_commits (translate_commit config wpt_work gecko_work sync) commits.

(** *** [update_sync] *)

Definition default_component : list string := ["Testing"; "web-platform-tests"].

(** The arguments [bz.set_component] is given by [*new_component]. *)
Definition routing_args (r : Routing (list string)) : list string :=
  match r with
  | Default d => d
  | Split parts => parts
  end.

(** [get_pr] inside its [try]: the pair, or the error caught. *)
Definition try_get_pr (config : Config) (git_wpt : Repo) (sync : Z) :
    M (Repo * string + GitCommandError) :=
  try_except (do r <- get_pr config git_wpt sync; ret (inl r))
             (fun e => ret (inr e)).

Definition update_sync (config : Config) (git_gecko git_wpt : Repo) (sync : Z) :
    M pyval :=
  record_call (CallUpdateSync sync);;
  session_scope
    (do got <- try_get_pr config git_wpt sync;
     match got with
     | inr e =>
         logger Error ("Failed to obtain web-platform-tests PR " ++ pretty sync
                       ++ ":" ++ PyStr.nl ++ gce_str e);;
         do b <- sync_bug sync;
         bz_comment b
           ("Downstreaming from web-platform-tests failed because obtaining "
            ++ "PR " ++ pretty sync ++ " failed:" ++ PyStr.nl ++ gce_str e);;
         ret (PyBool false)
     | inl (wpt_work, wpt_branch) =>
         do files_changed <- get_files_changed (working_dir wpt_work);
         logger Info "Fetching mozilla-unified";;
         git_cmd (git_fetch git_gecko ["mozilla"]);;
         logger Info "Fetch done";;
         do work <-
           run_ensure_worktree git_gecko "gecko" sync ("PR_" ++ pretty sync)
                               (gecko_refs_central config);
         let '(gecko_work, gecko_branch) := work in
         git_cmd (index_reset gecko_work (gecko_refs_central config));;
         do success <- wpt_to_gecko_commits config wpt_work gecko_work sync;
         if negb success then ret PyNone
         else
           commit_manifest_update gecko_work;;
           do new_component <-
             choose_bug_component config gecko_work files_changed
                                  default_component;
           do b <- sync_bug sync;
           bz_set_component b (routing_args new_component);;
           ret PyNone
     end).

(** *** [status_changed] *)

Definition status_changed (config : Config) (git_gecko git_wpt : Repo)
    (sync : Z) (event : StatusEvent) : M unit :=
  if decide (context event <> "continuous-integration/travis-ci/pr") then
    logger Info ("Ignoring status for context " ++ context event)
  else if decide (state event = "pending") then
    do path <- sync_wpt_worktree sync;
    do at_tip <- ask (is_worktree_tip git_wpt path (sha event));
    if negb at_tip then
      update_sync config git_gecko git_wpt sync;;
      ret tt
    else ret tt
  else if decide (state event = "passed") then ret tt
  else ret tt.

End Downstream.

(** ** Specification-side definitions *)

Section Specification.

Context {G : Type} `{!Collaborators G}.

(** Number of times the orchestrator has been entered. *)
Definition is_update_sync (c : Call) : bool :=
  match c with
  | CallUpdateSync _ => true
  | _ => false
  end.

Definition invocations (w : World G) : nat :=
  length (filter (fun c => is_update_sync c = true) (calls w)).

(** A computation that does not enter the orchestrator. *)
Definition quiet {A} (m : M A) : Prop :=
  forall w, invocations (m w).2 = invocations w.

(** The error with which translating commit [c] stops when the
    repositories are in state [g], if it does: [git show] raising,
    [git am] raising, or [git am] leaving a non-zero return code. *)
Definition commit_failure (config : Config) (wpt_work gecko_work : Repo)
    (c : Commit) (g : G) : option GitCommandError :=
  match git_show wpt_work c g with
  | GitFailed e => Some e
  | GitOk shown =>
      let patch := shown ++ PyStr.nl in
      let directory := "--directory=" ++ gecko_path_wpt config in
      if PyStr.endswith (PyStr.nl ++ PyStr.nl ++ PyStr.nl) patch then None
      else match git_am gecko_work directory patch g with
           | (GitFailed e, _) => Some e
           | (GitOk (returncode, stdout, stderr), _) =>
               if decide (returncode <> 0%Z)
               then Some {| gce_command := ["am"; directory; "-"];
                            gce_status := returncode;
                            gce_stderr := stderr;
                            gce_stdout := stdout |}
               else None
           end
  end.

(** The repositories after commit [c] has been translated from state
    [g] without error: untouched for an empty patch, else as [git am]
    leaves them. *)
Definition commit_effect (config : Config) (wpt_work gecko_work : Repo)
    (c : Commit) (g : G) : G :=
  match git_show wpt_work c g with
  | GitFailed _ => g
  | GitOk shown =>
      let patch := shown ++ PyStr.nl in
      if PyStr.endswith (PyStr.nl ++ PyStr.nl ++ PyStr.nl) patch then g
      else (git_am gecko_work ("--directory=" ++ gecko_path_wpt config) patch g).2
  end.

(** The repositories after all of [commits] have been translated in
    order from state [g], when none of them fails. *)
Fixpoint translate_all (config : Config) (wpt_work gecko_work : Repo)
    (commits : list Commit) (g : G) : option G :=
  match commits with
  | [] => Some g
  | c :: rest =>
      match commit_failure config wpt_work gecko_work c g with
      | Some _ => None
      | None =>
          translate_all config wpt_work gecko_work rest
                        (commit_effect config wpt_work gecko_work c g)
      end
  end.

(** The two comments the translator posts, for commit [c] and error [e]. *)
Definition render_comment (c : Commit) (e : GitCommandError) : string :=
  "Downstreaming from web-platform-tests failed because creating patch "
  ++ "from " ++ hexsha c ++ " failed:" ++ PyStr.nl ++ gce_str e.

Definition apply_comment (c : Commit) (e : GitCommandError) : string :=
  "Downstreaming from web-platform-tests failed because applying patch "
  ++ "from " ++ hexsha c ++ " failed:" ++ PyStr.nl ++ gce_str e.

(** The two assertions that open [wpt_to_gecko_commits]. *)
Definition branches_match (wpt_work gecko_work : Repo) (sync : Z)
    (w : World G) : Prop :=
  exists wpt_path gecko_path,
    session w !! sync ≫= wpt_worktree = Some wpt_path
    /\ session w !! sync ≫= gecko_worktree = Some gecko_path
    /\ active_branch_name wpt_work (ext w) = PyStr.basename wpt_path
    /\ active_branch_name gecko_work (ext w) = PyStr.basename gecko_path.

End Specification.

(** Calls that render and apply the commits of a list, in its order:
    each commit is shown, and applied at most once right after. *)
Inductive in_order : list Commit -> list Call -> Prop :=
  | in_order_nil : in_order [] []
  | in_order_show c cs tr :
      in_order cs tr -> in_order (c :: cs) (CallShow c :: tr)
  | in_order_apply c cs tr directory patch :
      in_order cs tr ->
      in_order (c :: cs) (CallShow c :: CallAm c directory patch :: tr).

(** The routing decision as the specification words it, for the counts
    [components] and the fallback [d]. *)
Inductive routing_spec {D : Type} (components : gmap string nat) (d : D) :
    Routing D -> Prop :=
  | routing_empty :
      components = ∅ -> routing_spec components d (Default d)
  | routing_top c n :
      components !! c = Some n ->
      (forall c' n', components !! c' = Some n' -> (n' <= n)%nat) ->
      c <> "UNKNOWN" ->
      routing_spec components d (Split (PyStr.split " :: " c))
  | routing_second n c n2 :
      components !! "UNKNOWN" = Some n ->
      (forall c' n', components !! c' = Some n' -> (n' <= n)%nat) ->
      c <> "UNKNOWN" ->
      components !! c = Some n2 ->
      (forall c' n', c' <> "UNKNOWN" -> components !! c' = Some n' -> (n' <= n2)%nat) ->
      routing_spec components d (Split (PyStr.split " :: " c))
  | routing_only_unknown n :
      components = {[ "UNKNOWN" := n ]} ->
      routing_spec components d (Default d).

(** The counts of the two examples of the specification. *)
Definition unknown_and_dom : gmap string nat :=
  <["UNKNOWN" := 5%nat]> {["Core :: DOM" := 2%nat]}.

Definition a_and_b : gmap string nat :=
  <["A" := 3%nat]> {["B" := 7%nat]}.

(** The order [sorted_by_count] leaves: no count before a larger one. *)
Definition count_ge (x y : string * nat) : Prop := (y.2 <= x.2)%nat.

(** Every line that begins with a space comes after a header line. *)
Definition details_follow_header (lines : list string) : Prop :=
  forall i line,
    lines !! i = Some line -> PyStr.startswith " " line = true ->
    exists j header,
      (j < i)%nat /\ lines !! j = Some header
      /\ PyStr.startswith " " header = false.

(** ** A scripted set of collaborators

    Repositories whose behaviour is read off a script: used to run the
    module on closed inputs. *)

Module Scripted.

Record Script := {
  fetch_fails : bool;
  (** hexsha at the head of the pull request *)
  pr_head : string;
  (** branches of the web-platform-tests clone *)
  heads : gmap string string;
  (** what [git show] prints for a hexsha, or the error it raises *)
  shows : list (string * git_result string);
  (** patches [git am] rejects *)
  conflicts : list string;
  (** patches applied to the gecko worktree, oldest first *)
  applied : list string;
  commits : list Commit;
  file_info_report : string;
  files_changed_output : string;
  commit_ok : bool;
}.

Definition set_heads (h : gmap string string) (g : Script) : Script :=
  Build_Script (fetch_fails g) (pr_head g) h (shows g) (conflicts g) (applied g)
               (commits g) (file_info_report g) (files_changed_output g)
               (commit_ok g).

Definition set_applied (a : list string) (g : Script) : Script :=
  Build_Script (fetch_fails g) (pr_head g) (heads g) (shows g) (conflicts g) a
               (commits g) (file_info_report g) (files_changed_output g)
               (commit_ok g).

Definition fetch_error : GitCommandError :=
  {| gce_command := ["git"; "fetch"];
     gce_status := 128;
     gce_stderr := "fatal: unable to access remote";
     gce_stdout := "" |}.

Definition show_error : GitCommandError :=
  {| gce_command := ["git"; "show"];
     gce_status := 128;
     gce_stderr := "fatal: bad object";
     gce_stdout := "" |}.

Fixpoint assoc {A} (k : string) (l : list (string * A)) : option A :=
  match l with
  | [] => None
  | (k', a) :: l' => if decide (k = k') then Some a else assoc k l'
  end.

Definition record_worktree (name path : string) (r : Sync) : Sync :=
  if decide (name = "gecko")
  then Build_Sync (direction r) (repository r) (bug r) (wpt_worktree r)
                  (Some (default path (gecko_worktree r)))
  else Build_Sync (direction r) (repository r) (bug r)
                  (Some (default path (wpt_worktree r))) (gecko_worktree r).

#[export] Instance scripted : Collaborators Script := {|
  git_fetch _ _ g :=
    if fetch_fails g then (GitFailed fetch_error, g) else (GitOk tt, g);
  git_merge repo _ g :=
    (GitOk tt, set_heads (<[PyStr.basename (working_dir repo) := pr_head g]> (heads g)) g);
  index_reset _ _ g := (GitOk tt, g);
  git_reset_hard _ _ g := (GitOk tt, g);
  git_add _ _ g := (GitOk tt, g);
  git_commit _ _ g := (GitOk tt, g);
  git_show _ c g := default (GitFailed show_error) (assoc (hexsha c) (shows g));
  git_am _ _ patch g :=
    if decide (patch ∈ conflicts g)
    then (GitOk (1%Z, "", "error: patch does not apply"), g)
    else (GitOk (0%Z, "", ""), set_applied (applied g ++ [patch]) g);
  iter_commits _ _ g := commits g;
  active_branch_name repo _ := PyStr.basename (working_dir repo);
  repo_heads _ g := heads g;
  is_dirty _ _ := true;
  ensure_worktree _ name sync branch _ rows g :=
    let path := "/worktrees/" ++ name ++ "/" ++ branch in
    let rows' := alter (record_worktree name path) sync rows in
    let path' :=
      default path (rows' !! sync ≫=
                    if decide (name = "gecko") then gecko_worktree else wpt_worktree) in
    (GitOk (Worktree path', branch), rows', g);
  mach_wpt_manifest_update _ g := g;
  mach_file_info _ _ g := file_info_report g;
  wpt_files_changed _ g := files_changed_output g;
  gce_str e := gce_stderr e;
  db_commit_ok g := commit_ok g;
  dict_items m := map_to_list m;
  dict_items_perm m := Permutation_refl _;
  set_iter s := elements s;
  set_iter_perm s := Permutation_refl _;
|}.

(** The pull request and status event of the module's own [main]. *)
Definition pr9 : PullRequestEvent :=
  {| number := 9; title := "Test PR"; pr_body := "blah blah body" |}.

Definition pending9 : StatusEvent :=
  {| context := "continuous-integration/travis-ci/pr";
     state := "pending";
     sha := "409018c0a562e1b47d97b53428bb7650f763720d" |}.

Definition config : Config :=
  {| gecko_path_wpt := "testing/web-platform/tests";
     gecko_refs_central := "mozilla/central" |}.

Definition commit1 : Commit := {| hexsha := "1111111" |}.
Definition commit2 : Commit := {| hexsha := "2222222" |}.
Definition commit3 : Commit := {| hexsha := "3333333" |}.

Definition patch_of (text : string) : string :=
  "Subject: [PATCH] " ++ text ++ PyStr.nl ++ PyStr.nl
  ++ "diff --git a/" ++ text ++ " b/" ++ text ++ PyStr.nl ++ "+" ++ text.

(** A commit whose patch has no diff: headers and message only. *)
Definition empty_patch : string :=
  "Subject: [PATCH] nothing" ++ PyStr.nl ++ PyStr.nl ++ PyStr.nl.

Definition report : string :=
  "Core :: DOM" ++ PyStr.nl ++ "  testing/web-platform/tests/dom/a.html" ++ PyStr.nl.

(** Three commits, the second empty; everything goes through. *)
Definition healthy : Script :=
  {| fetch_fails := false;
     pr_head := sha pending9;
     heads := ∅;
     shows := [("1111111", GitOk (patch_of "a.html"));
               ("2222222", GitOk empty_patch);
               ("3333333", GitOk (patch_of "c.html"))];
     conflicts := [];
     applied := [];
     commits := [commit1; commit2; commit3];
     file_info_report := report;
     files_changed_output := "dom/a.html" ++ PyStr.nl ++ "dom/c.html";
     commit_ok := true |}.

Definition set_fetch_fails (b : bool) (g : Script) : Script :=
  Build_Script b (pr_head g) (heads g) (shows g) (conflicts g) (applied g)
               (commits g) (file_info_report g) (files_changed_output g)
               (commit_ok g).

Definition set_conflicts (l : list string) (g : Script) : Script :=
  Build_Script (fetch_fails g) (pr_head g) (heads g) (shows g) l (applied g)
               (commits g) (file_info_report g) (files_changed_output g)
               (commit_ok g).

Definition set_commit_ok (b : bool) (g : Script) : Script :=
  Build_Script (fetch_fails g) (pr_head g) (heads g) (shows g) (conflicts g)
               (applied g) (commits g) (file_info_report g)
               (files_changed_output g) b.

(** The remote cannot be reached. *)
Definition offline : Script := set_fetch_fails true healthy.

(** The patch of the third commit does not apply. *)
Definition conflicting : Script :=
  set_conflicts [patch_of "c.html" ++ PyStr.nl] healthy.

(** The state store refuses to commit. *)
Definition store_down : Script := set_commit_ok false healthy.

Definition set_file_info_report (r : string) (g : Script) : Script :=
  Build_Script (fetch_fails g) (pr_head g) (heads g) (shows g) (conflicts g)
               (applied g) (commits g) r (files_changed_output g) (commit_ok g).

(** A report with five paths of unknown component and two of Core :: DOM. *)
Definition unknown_report : string :=
  PyStr.join PyStr.nl
    ["UNKNOWN"; "  a"; "  b"; "  c"; "  d"; "  e"; "Core :: DOM"; "  f"; "  g"; ""].

Definition ambiguous : Script := set_file_info_report unknown_report healthy.

(** A report whose first line is a detail line. *)
Definition indented : Script :=
  set_file_info_report ("  dom/a.html" ++ PyStr.nl) healthy.

(** The worktrees of pull request 9. *)
Definition wpt_work : Repo := Worktree "/worktrees/web-platform-tests/PR_9".
Definition gecko_work : Repo := Worktree "/worktrees/gecko/PR_9".

Definition blank_world (g : Script) : World Script :=
  mkWorld g ∅ ∅ [] [] [] [] [].

(** The world after the intake of pull request 9. *)
Definition world_of (g : Script) : World Script :=
  (new_wpt_pr pr9 (blank_world g)).2.

(** The world in which the translator runs for pull request 9: the
    worktrees are recorded on the row and checked out. *)
Definition translating (g : Script) : World Script :=
  (bind (get_pr config GitWpt 9)
        (fun _ => run_ensure_worktree GitGecko "gecko" 9 "PR_9" "mozilla/central")
        (world_of g)).2.

End Scripted.

(** ** Try pushes: [get_affected_tests], [construct_try_message], [push_to_try] *)

(** [rev_re = re.compile("revision=(?P<rev>[0-9a-f]{40})")]. *)
Module RevRe.

Definition is_hex (c : ascii) : bool :=
  let n := nat_of_ascii c in
  ((Nat.leb 48 n && Nat.leb n 57) || (Nat.leb 97 n && Nat.leb n 102))%bool.

(** The first [n] characters of [s], when they are all in [[0-9a-f]]. *)
Fixpoint take_hex (n : nat) (s : string) : option string :=
  match n with
  | O => Some EmptyString
  | S n' =>
      match s with
      | EmptyString => None
      | String c s' =>
          if is_hex c then
            match take_hex n' s' with
            | Some r => Some (String c r)
            | None => None
            end
          else None
      end
  end.

Fixpoint drop (n : nat) (s : string) : string :=
  match n, s with
  | O, _ => s
  | S _, EmptyString => EmptyString
  | S n', String _ s' => drop n' s'
  end.

(** The match of the pattern at the start of [s]: its group [rev]. *)
Definition match_here (s : string) : option string :=
  if PyStr.startswith "revision=" s then take_hex 40 (drop 9 s) else None.

(** [rev_re.search(s)]: the leftmost match, as its group [rev]. *)
Fixpoint search (s : string) : option string :=
  match match_here s with
  | Some rev => Some rev
  | None =>
      match s with
      | EmptyString => None
      | String _ s' => search s'
      end
  end.

End RevRe.

(** A lookup in a dict literal: the value, or [KeyError(key)]. *)
Inductive keyed (A : Type) :=
  | Found (a : A)
  | KeyError (key : string).
Arguments Found {A} a.
Arguments KeyError {A} key.

(** Iteration order of [tests_by_type.iteritems()] and of a set of paths:
    unspecified, every element once. *)
Class Iteration := {
  tests_items : gmap string (gset string) -> list (string * gset string);
  tests_items_perm : forall m, tests_items m ≡ₚ map_to_list m;
  paths_iter : gset string -> list string;
  paths_iter_perm : forall s, paths_iter s ≡ₚ elements s;
}.

(** The capabilities the try-push functions consume. *)
Class TryCollaborators (G : Type) := {
  (** [WPT(path).manifest()] *)
  wpt_manifest : string -> G -> G;
  (** [WPT(path).tests_affected] on its arguments: text, or [None] *)
  wpt_tests_affected : string -> list string -> G -> option string;
  (** [git_work.git(args)] and [git_work.git.cmd(args)]: status, stdout,
      stderr *)
  git_call : Repo -> list string -> G -> git_result (Z * string * string) * G;
}.

Module TryPush.

(** The dict literal [test_type_suite]. *)
Definition test_type_suite (test_type : string) : keyed string :=
  if decide (test_type = "testharness") then Found "web-platform-tests"
  else if decide (test_type = "reftest") then Found "web-platform-tests-reftests"
  else if decide (test_type = "wdspec") then Found "web-platform-tests-wdspec"
  else KeyError test_type.

Definition platform_suffix : string :=
  "[linux64-stylo,Ubuntu,10.10,Windows 7,Windows 8,Windows 10]".

(** What one pass of the loop appends to [test_data["test_jobs"]]. *)
Definition jobs_of (suite : string) (paths : gset string) : list string :=
  if decide (size paths <> 0%nat) then
    let machines :=
      if decide (suite = "web-platform-tests") then platform_suffix else "" in
    [suite ++ machines; suite ++ "-e10s" ++ machines]
  else [].

Section Message.

Context `{!Iteration}.

(** What one pass of the loop appends to [test_data["prefixed_paths"]]. *)
Definition prefixed_of (suite : string) (paths : gset string) : list string :=
  map (fun p => suite ++ ":" ++ p) (paths_iter paths).

(** The loop of [construct_try_message] over the items still to visit,
    with the two lists of [test_data] as built so far. *)
Fixpoint collect_try_data (items : list (string * gset string))
    (test_jobs prefixed_paths : list string) :
    keyed (list string * list string) :=
  match items with
  | [] => Found (test_jobs, prefixed_paths)
  | (test_type, paths) :: rest =>
      match test_type_suite test_type with
      | KeyError k => KeyError k
      | Found suite =>
          collect_try_data rest (test_jobs ++ jobs_of suite paths)
                           (prefixed_paths ++ prefixed_of suite paths)
      end
  end.

(** [test_data] as the loop leaves it. *)
Definition try_data (tests_by_type : gmap string (gset string)) :
    keyed (list string * list string) :=
  collect_try_data (tests_items tests_by_type) [] [].

Definition construct_try_message (tests_by_type : gmap string (gset string)) :
    keyed string :=
  match try_data tests_by_type with
  | KeyError k => KeyError k
  | Found (test_jobs, prefixed_paths) =>
      Found ("try: -b do -p win32,win64,linux64,linux -u "
             ++ PyStr.join "," test_jobs
             ++ " -t none --artifact --try-test-paths "
             ++ PyStr.join "," prefixed_paths)
  end.

End Message.

(** The loop of [get_affected_tests] over the lines of the report. *)
Fixpoint add_affected (items : list string)
    (tests_by_type : gmap string (gset string)) :
    result (gmap string (gset string)) :=
  match items with
  | [] => Ok tests_by_type
  | item :: rest =>
      match PyStr.split (String (ascii_of_nat 9) EmptyString) (PyStr.strip item) with
      | [path; test_type] =>
          add_affected rest
            (<[test_type := default ∅ (tests_by_type !! test_type) ∪ {[ path ]}]>
               tests_by_type)
      | _ => Raise EAssertionError
      end
  end.

Section Commands.

Context {G : Type} `{!TryCollaborators G}.

Local Notation "'do' x <- m ; k" := (bind (G := G) m (fun x => k))
  (at level 10, x pattern, m at level 100, k at level 200).
Local Notation "m ;; k" := (bind (G := G) m (fun _ => k))
  (at level 100, k at level 200, right associativity).

Definition get_affected_tests (path_to_wpt : string) (revish : option string) :
    M (G := G) (gmap string (gset string)) :=
  (fun w => (Ok tt, set_ext (wpt_manifest path_to_wpt (ext w)) w));;
  let args :=
    (["--show-type"; "--new"]
     ++ match revish with
        | Some r => if decide (r = "") then [] else [r]
        | None => []
        end)%list in
  do s <- ask (wpt_tests_affected path_to_wpt args);
  match s with
  | Some s => lift_result (add_affected (PyStr.split PyStr.nl (PyStr.strip s)) ∅)
  | None => ret ∅
  end.

(** [try: body finally: cleanup]. *)
Definition try_finally {A} (body : M (G := G) A) (cleanup : M (G := G) unit) :
    M (G := G) A :=
  fun w => match body w with
           | (r, w') =>
               match cleanup w' with
               | (Ok _, w'') => (r, w'')
               | (Raise e, w'') => (Raise e, w'')
               end
           end.

Definition affected_tests : list string :=
  ["testing/web-platform/tests/webdriver";
   "testing/web-platform/tests/2dcontext";
   "testing/web-platform/tests/cookies"].

Definition push_message : string :=
  "try: -b do -p linux,linux64 -u web-platform-tests-1,web-platform-tests-e10s-1 "
  ++ "-t none --artifact --try-test-paths "
  ++ PyStr.join "" (map (fun t => "web-platform-tests:" ++ t) affected_tests).

Definition results_prefix : string :=
  "https://treeherder.mozilla.org/#/" ++ "jobs?repo=try&revision=".

Definition push_to_try (git_work : Repo) (branch : string) : M (G := G) string :=
  git_cmd (git_call git_work ["checkout"; branch]);;
  git_cmd (git_call git_work ["commit"; "--allow-empty"; "-m"; push_message]);;
  try_finally
    (do out <- git_cmd (git_call git_work ["push"; "try"]);
     let '(status, stdout, stderr) := out in
     match RevRe.search stdout with
     | Some rev => ret (results_prefix ++ rev)
     | None => raise EAttributeError
     end)
    (git_cmd (git_call git_work ["reset"; "HEAD~"]);; ret tt).

End Commands.

End TryPush.

(** What a type and its paths contribute to the two lists of the try
    message, the paths taken in the order [elements] gives. *)
Definition jobs_for (item : string * gset string) : list string :=
  match TryPush.test_type_suite item.1 with
  | Found suite => TryPush.jobs_of suite item.2
  | KeyError _ => []
  end.

Definition prefixed_for (item : string * gset string) : list string :=
  match TryPush.test_type_suite item.1 with
  | Found suite => map (fun p => suite ++ ":" ++ p) (elements item.2)
  | KeyError _ => []
  end.

(** Scripted collaborators for the try-push functions. *)
Module TryScripted.

Record TryState := {
  (** what [tests_affected] prints *)
  affected : option string;
  (** what [git push try] gives *)
  pushed : git_result (Z * string * string);
  (** the git commands run, oldest first *)
  commands : list (list string);
}.

#[export] Instance try_scripted : TryCollaborators TryState := {|
  wpt_manifest _ g := g;
  wpt_tests_affected _ _ g := affected g;
  git_call _ args g :=
    (if decide (args = ["push"; "try"]) then pushed g else GitOk (0%Z, "", ""),
     Build_TryState (affected g) (pushed g) (commands g ++ [args]));
|}.

#[export] Instance any_order : Iteration := {|
  tests_items m := map_to_list m;
  tests_items_perm m := Permutation_refl _;
  paths_iter s := elements s;
  paths_iter_perm s := Permutation_refl _;
|}.

Definition tab : string := String (ascii_of_nat 9) EmptyString.

Definition revision : string := "409018c0a562e1b47d97b53428bb7650f763720d".

(** Two affected tests are reported; the push prints its revision. *)
Definition reporting : TryState :=
  {| affected := Some ("dom/a.html" ++ tab ++ "testharness" ++ PyStr.nl
                       ++ "css/b.html" ++ tab ++ "reftest" ++ PyStr.nl);
     pushed := GitOk (0%Z, "remote: revision=" ++ revision ++ PyStr.nl, "");
     commands := [] |}.

(** Nothing is reported; the push is refused. *)
Definition silent : TryState :=
  {| affected := Some "";
     pushed := GitFailed {| gce_command := ["git"; "push"; "try"];
                            gce_status := 1;
                            gce_stderr := "remote: rejected";
                            gce_stdout := "" |};
     commands := [] |}.

(** The state [g] once the commands [cmds] have been run. *)
Definition ran (g : TryState) (cmds : list (list string)) : TryState :=
  Build_TryState (affected g) (pushed g) cmds.

Definition checkout_cmd : list string := ["checkout"; "PR_9"].
Definition commit_cmd : list string :=
  ["commit"; "--allow-empty"; "-m"; TryPush.push_message].
Definition push_cmd : list string := ["push"; "try"].
Definition reset_cmd : list string := ["reset"; "HEAD~"].

Definition world (g : TryState) : World TryState :=
  mkWorld g ∅ ∅ [] [] [] [] [].

Definition by_type : gmap string (gset string) :=
  <["testharness" := {[ "dom/a.html" ]}]> {[ "reftest" := {[ "css/b.html" ]} ]}.

End TryScripted.

(** ** The worktree at a revision *)

(** The worktree recorded at [path] is at revision [rev]: a path is
    recorded, it is not empty, and in [repo] the branch named by the last
    component of the path has the commit [rev] at its head. *)
Definition worktree_at {G : Type} `{!Collaborators G} (repo : Repo)
    (path : option string) (rev : string) (g : G) : Prop :=
  exists p,
    path = Some p /\ p <> "" /\ repo_heads repo g !! PyStr.basename p = Some rev.

(** ** Patches without content *)

(** A patch in the email format carries its content changes in sections
    that open with a line [diff --git]; a patch without such a line is
    headers and message only. *)
Definition has_diff (patch : string) : bool :=
  existsb (PyStr.startswith "diff --git ") (PyStr.split PyStr.nl patch).

Definition semantically_empty (patch : string) : bool := negb (has_diff patch).

(** Collaborators that answer as git 2.39 does on patches: [git am]
    applies a patch that has a diff and refuses one that has none with
    exit code 128 and [Patch is empty.] on stdout. *)
Module AsGit.

Record Tree := {
  (** what [git show --pretty=email] prints for a hexsha, less the line
      feed GitPython drops at the end *)
  rendered : list (string * string);
  history : list Commit;
  (** patches applied to the gecko worktree, oldest first *)
  am_applied : list string;
}.

#[export] Instance as_git : Collaborators Tree := {|
  git_fetch _ _ g := (GitOk tt, g);
  git_merge _ _ g := (GitOk tt, g);
  index_reset _ _ g := (GitOk tt, g);
  git_reset_hard _ _ g := (GitOk tt, g);
  git_add _ _ g := (GitOk tt, g);
  git_commit _ _ g := (GitOk tt, g);
  git_show _ c g :=
    match Scripted.assoc (hexsha c) (rendered g) with
    | Some text => GitOk text
    | None => GitFailed Scripted.show_error
    end;
  git_am _ _ patch g :=
    if has_diff patch
    then (GitOk (0%Z, "Applying: patch", ""),
          Build_Tree (rendered g) (history g) (am_applied g ++ [patch]))
    else (GitOk (128%Z, "Patch is empty.", ""), g);
  iter_commits _ _ g := history g;
  active_branch_name repo _ := PyStr.basename (working_dir repo);
  repo_heads _ _ := ∅;
  is_dirty _ _ := true;
  ensure_worktree repo _ _ branch _ rows g := (GitOk (repo, branch), rows, g);
  mach_wpt_manifest_update _ g := g;
  mach_file_info _ _ _ := "";
  wpt_files_changed _ _ := "";
  gce_str e := gce_stderr e ++ gce_stdout e;
  db_commit_ok _ := true;
  dict_items m := map_to_list m;
  dict_items_perm m := Permutation_refl _;
  set_iter s := elements s;
  set_iter_perm s := Permutation_refl _;
|}.

(** A commit made with [git commit --allow-empty], as [git show
    --pretty=email] renders it: the headers and the subject, no diff. *)
Definition allow_empty : Commit :=
  {| hexsha := "b2b928f0e5541bc6bbdf28d7fed14d5c1535818e" |}.

Definition allow_empty_text : string :=
  PyStr.join PyStr.nl
    ["From b2b928f0e5541bc6bbdf28d7fed14d5c1535818e Mon Sep 17 00:00:00 2001";
     "From: Dev <a@b.c>";
     "Date: Thu, 5 Nov 2026 01:09:32 +0000";
     "Subject: [PATCH] nothing to see";
     ""].

(** The commit that follows it changes a file. *)
Definition change : Commit :=
  {| hexsha := "5f0c2f1d3a7b4e6c8d9e0a1b2c3d4e5f60718293" |}.

Definition change_text : string :=
  PyStr.join PyStr.nl
    ["From 5f0c2f1d3a7b4e6c8d9e0a1b2c3d4e5f60718293 Mon Sep 17 00:00:00 2001";
     "From: Dev <a@b.c>";
     "Date: Thu, 5 Nov 2026 01:10:15 +0000";
     "Subject: [PATCH] change f";
     "";
     "";
     "diff --git a/f.txt b/f.txt";
     "index df967b9..d3b0738 100644";
     "--- a/f.txt";
     "+++ b/f.txt";
     "@@ -1 +1,2 @@";
     " base";
     "+more"].

Definition tree : Tree :=
  {| rendered := [(hexsha allow_empty, allow_empty_text);
                  (hexsha change, change_text)];
     history := [allow_empty; change];
     am_applied := [] |}.

(** The world in which the translator runs for pull request 9. *)
Definition start : World Tree :=
  mkWorld tree
    {[ 9%Z := {| direction := downstream;
                 repository := "web-platform-tests";
                 bug := Some 0%nat;
                 wpt_worktree := Some "/worktrees/web-platform-tests/PR_9";
                 gecko_worktree := Some "/worktrees/gecko/PR_9" |} ]}
    {[ 9%Z := {| direction := downstream;
                 repository := "web-platform-tests";
                 bug := Some 0%nat;
                 wpt_worktree := Some "/worktrees/web-platform-tests/PR_9";
                 gecko_worktree := Some "/worktrees/gecko/PR_9" |} ]}
    [] [] [] [] [].

End AsGit.

(** The world the first pending event of [main] leaves, and a pending
    event for another revision. *)
Module Settled.

Import Scripted.

Definition settled : World Scripted.Script :=
  (status_changed Scripted.config GitGecko GitWpt 9 Scripted.pending9
     (Scripted.world_of Scripted.healthy)).2.

Definition pending_other : StatusEvent :=
  {| context := "continuous-integration/travis-ci/pr";
     state := "pending";
     sha := "0000000000000000000000000000000000000000" |}.

End Settled.

(** What a type and its paths must contribute to the two lists of the
    try message, written out. *)
Definition expected_jobs (item : string * gset string) : list string :=
  if decide (item.2 = ∅) then []
  else if decide (item.1 = "testharness") then
    ["web-platform-tests[linux64-stylo,Ubuntu,10.10,Windows 7,Windows 8,Windows 10]";
     "web-platform-tests-e10s[linux64-stylo,Ubuntu,10.10,Windows 7,Windows 8,Windows 10]"]
  else if decide (item.1 = "reftest") then
    ["web-platform-tests-reftests"; "web-platform-tests-reftests-e10s"]
  else if decide (item.1 = "wdspec") then
    ["web-platform-tests-wdspec"; "web-platform-tests-wdspec-e10s"]
  else [].

Definition expected_paths (item : string * gset string) : list string :=
  if decide (item.1 = "testharness") then
    map (fun p => "web-platform-tests:" ++ p) (elements item.2)
  else if decide (item.1 = "reftest") then
    map (fun p => "web-platform-tests-reftests:" ++ p) (elements item.2)
  else if decide (item.1 = "wdspec") then
    map (fun p => "web-platform-tests-wdspec:" ++ p) (elements item.2)
  else [].

(** ** Measures used by the further properties *)

(** The number of detail lines of a report: those that begin with a space. *)
Definition detail_lines (lines : list string) : nat :=
  length (filter (fun line => PyStr.startswith " " line = true) lines).

(** The sum of the counts of a [components] dict. *)
Definition total_count (components : gmap string nat) : nat :=
  map_fold (fun _ n acc => (n + acc)%nat) 0%nat components.

(** A computation that leaves the view [f] of the world as it found it. *)
Definition keeps {G A X : Type} (f : World G -> X) (m : M (G := G) A) : Prop :=
  forall w, f (m w).2 = f w.

(** The bugs filed and the components set: what of the tracker only the
    intake and the end of a completed run write. *)
Definition filed {G : Type} (w : World G) : list Bug * list (option nat * list string) :=
  (bz_bugs w, bz_components w).

(** The tracker as a whole. *)
Definition tracker {G : Type} (w : World G) :
    list Bug * list (option nat * string) * list (option nat * list string) :=
  (bz_bugs w, bz_comments w, bz_components w).

(** What one run of the orchestrator may do to the tracker, from [w] to
    [w']: no bug is filed, and either the components are untouched and at
    most one comment is added, or one component is set and no comment is
    added. *)
Definition tracker_outcome {G : Type} (w w' : World G) : Prop :=
  bz_bugs w' = bz_bugs w
  /\ ((bz_components w' = bz_components w
       /\ (bz_comments w' = bz_comments w
           \/ exists x, bz_comments w' = (bz_comments w ++ [x])%list))
      \/ (bz_comments w' = bz_comments w
          /\ exists x, bz_components w' = (bz_components w ++ [x])%list)).

(** * Properties *)

Arguments PyStr.startswith : simpl never.
Arguments PyStr.endswith : simpl never.
Arguments PyStr.split : simpl never.
Arguments PyStr.strip : simpl never.
Arguments PyStr.basename : simpl never.
Arguments PyStr.path_join : simpl never.

(** ** Strings *)

Example split_lines_ex :
  PyStr.split PyStr.nl ("a" ++ PyStr.nl ++ " b" ++ PyStr.nl) = ["a"; " b"; ""].
Proof. reflexivity. Qed.

Example split_empty_ex : PyStr.split PyStr.nl "" = [""].
Proof. reflexivity. Qed.

Example split_component_ex : PyStr.split " :: " "Core :: DOM" = ["Core"; "DOM"].
Proof. reflexivity. Qed.

Example split_overlap_ex : PyStr.split " :: " "a ::  :: b :: " = ["a"; ""; "b"; ""].
Proof. reflexivity. Qed.

Example strip_ex : PyStr.strip ("  Core :: DOM " ++ PyStr.nl) = "Core :: DOM".
Proof. reflexivity. Qed.

Example endswith_ex :
  PyStr.endswith (PyStr.nl ++ PyStr.nl) ("x" ++ PyStr.nl ++ PyStr.nl) = true
  /\ PyStr.endswith (PyStr.nl ++ PyStr.nl) (PyStr.nl) = false
  /\ PyStr.endswith "" "" = true.
Proof. repeat split; reflexivity. Qed.

Example basename_ex : PyStr.basename "/work/wpt/PR_9" = "PR_9".
Proof. reflexivity. Qed.

Example path_join_ex :
  PyStr.path_join "testing/web-platform/tests" "dom/a.html"
  = "testing/web-platform/tests/dom/a.html".
Proof. reflexivity. Qed.

Lemma split_cons sep s : exists p r, PyStr.split sep s = p :: r.
Proof. unfold PyStr.split. destruct (PyStr.split_go sep 0 s) as [p r]. eauto. Qed.

Lemma split_empty sep : PyStr.split sep "" = [""].
Proof. reflexivity. Qed.

(** ** Sorting by count *)

Lemma insert_by_count_perm x l : insert_by_count x l ≡ₚ x :: l.
Proof.
  induction l as [|y l IH]; simpl; [done|].
  destruct (y.2 <=? x.2)%nat; [done|].
  rewrite IH. apply Permutation_swap.
Qed.

Lemma sorted_by_count_perm l : sorted_by_count l ≡ₚ l.
Proof.
  induction l as [|x l IH]; simpl; [done|].
  rewrite insert_by_count_perm. by rewrite IH.
Qed.

Lemma insert_by_count_sorted x l :
  StronglySorted count_ge l -> StronglySorted count_ge (insert_by_count x l).
Proof.
  induction 1 as [|y l Hl IH Hy]; simpl.
  - repeat constructor.
  - destruct (Nat.leb_spec y.2 x.2) as [Hle|Hlt].
    + constructor; [by constructor|].
      constructor; [done|].
      eapply Forall_impl; [exact Hy|]. unfold count_ge. intros z Hz. lia.
    + constructor; [done|].
      rewrite insert_by_count_perm. constructor; [|done].
      unfold count_ge. lia.
Qed.

Lemma sorted_by_count_sorted l : StronglySorted count_ge (sorted_by_count l).
Proof.
  induction l as [|x l IH]; simpl; [constructor|].
  by apply insert_by_count_sorted.
Qed.

(** ** The routing classifier *)

Section Classifier.

Context {G : Type} `{!Collaborators G}.

Lemma count_components_header lines components c :
  exists m, count_components lines components (Some c) = Ok m.
Proof.
  revert components c. induction lines as [|line rest IH]; intros; simpl; [eauto|].
  destruct (PyStr.startswith " " line); apply IH.
Qed.

Lemma count_components_first line rest :
  count_components (line :: rest) ∅ None = Raise EAssertionError
  <-> PyStr.startswith " " line = true.
Proof.
  simpl. destruct (PyStr.startswith " " line); [done|].
  destruct (count_components_header rest ∅ (PyStr.strip line)) as [m ->].
  split; discriminate.
Qed.

Lemma details_follow_header_first line rest :
  details_follow_header (line :: rest) <-> PyStr.startswith " " line = false.
Proof.
  split.
  - intros H. destruct (PyStr.startswith " " line) eqn:Hs; [|done].
    destruct (H 0%nat line eq_refl Hs) as (j & ? & Hj & _). lia.
  - intros Hs [|i] l Hl Hsp; simpl in Hl.
    + congruence.
    + exists 0%nat, line. repeat split; [lia|done].
Qed.

(** The world [choose_bug_component] leaves when it has paths to query:
    the query is recorded and nothing else changes. *)
Lemma choose_bug_component_world {D} config repo fs (d : D) w :
  fs <> ∅ ->
  (choose_bug_component config repo fs d w).2
  = (record_call
       (CallFileInfo ("bugzilla-component"
                       :: map (PyStr.path_join (gecko_path_wpt config)) (set_iter fs))) w).2.
Proof.
  intros Hfs. unfold choose_bug_component.
  destruct (decide (fs = ∅)) as [|_]; [done|].
  unfold bind, record_call, ask, lift_result, py_index, ret, raise. simpl.
  repeat (case_match; simplify_eq/=; try done).
Qed.

Lemma sorted_items_elem (components : gmap string nat) c n :
  (c, n) ∈ sorted_by_count (dict_items components) <-> components !! c = Some n.
Proof.
  rewrite sorted_by_count_perm, dict_items_perm. apply elem_of_map_to_list.
Qed.

Lemma sorted_items_nodup (components : gmap string nat) :
  NoDup (sorted_by_count (dict_items components)).*1.
Proof.
  rewrite sorted_by_count_perm, dict_items_perm. apply NoDup_fst_map_to_list.
Qed.

Lemma sorted_items_nil (components : gmap string nat) :
  sorted_by_count (dict_items components) = [] -> components = ∅.
Proof.
  intros H. apply map_to_list_empty_iff. apply Permutation_nil_r.
  rewrite <- dict_items_perm, <- sorted_by_count_perm. by rewrite H.
Qed.

(** The reduction of the counts, once the report has been read. *)
Lemma reduce_components {D} (d : D) (components : gmap string nat) (w : World G) :
  components <> ∅ ->
  exists r,
    (let sorted := sorted_by_count (dict_items components) in
     bind (py_index sorted 0)
       (fun first =>
          bind (if decide (first.1 = "UNKNOWN" /\ (1 < length sorted)%nat)
                then bind (py_index sorted 1) (fun second => ret (second.1))
                else ret (first.1))
            (fun component =>
               if decide (component = "UNKNOWN") then ret (Default d)
               else ret (Split (PyStr.split " :: " component)))) w)
    = (Ok r, w)
    /\ routing_spec components d r.
Proof.
  intros Hne.
  pose proof (sorted_items_elem components) as Helem.
  pose proof (sorted_items_nodup components) as Hnd.
  pose proof (sorted_by_count_sorted (dict_items components)) as Hsorted.
  pose proof (sorted_items_nil components) as Hnil.
  destruct (sorted_by_count (dict_items components)) as [|[c0 n0] rest] eqn:Hs.
  { by destruct Hne; apply Hnil. }
  clear Hnil. cbn zeta. unfold bind, py_index, ret. simpl.
  apply StronglySorted_inv in Hsorted as [Hrest Hhead].
  assert (Hmax : forall c n, components !! c = Some n -> (n <= n0)%nat).
  { intros c n Hc. apply Helem in Hc. apply elem_of_cons in Hc as [Hc|Hc].
    - by simplify_eq.
    - rewrite Forall_forall in Hhead. apply (Hhead _ Hc). }
  assert (Hc0 : components !! c0 = Some n0) by (apply Helem; left).
  destruct (decide (c0 = "UNKNOWN" /\ (1 < S (length rest))%nat)) as [[-> Hlen]|Hno].
  - destruct rest as [|[c1 n1] rest']; [simpl in Hlen; lia|]. simpl.
    assert (Hc1 : c1 <> "UNKNOWN").
    { simpl in Hnd. apply NoDup_cons in Hnd as [Hnot _].
      intros ->. apply Hnot. left. }
    destruct (decide (c1 = "UNKNOWN")) as [|_]; [done|].
    eexists; split; [done|].
    apply (routing_second _ _ n0 c1 n1); [done|done|done|apply Helem; right; left|].
    intros c n Hc Hl. apply Helem in Hl.
    apply elem_of_cons in Hl as [Hl|Hl]; [by simplify_eq|].
    apply elem_of_cons in Hl as [Hl|Hl]; [by simplify_eq|].
    apply StronglySorted_inv in Hrest as [_ Hsecond].
    rewrite Forall_forall in Hsecond. apply (Hsecond _ Hl).
  - destruct (decide (c0 = "UNKNOWN")) as [->|Hc].
    + destruct rest as [|x rest']; [|destruct Hno; simpl; split; [done|lia]].
      eexists; split; [done|].
      apply (routing_only_unknown _ _ n0).
      apply map_eq. intros k. apply option_eq. intros v.
      rewrite <- Helem, lookup_singleton_Some, list_elem_of_singleton.
      split; [by intros [= -> ->]|by intros [<- <-]].
    + eexists; split; [done|]. by apply (routing_top _ _ c0 n0).
Qed.

Lemma routing_unknown_and_dom {D} (d : D) r :
  routing_spec unknown_and_dom d r -> r = Split ["Core"; "DOM"].
Proof.
  unfold unknown_and_dom.
  assert (Hu : (<["UNKNOWN" := 5%nat]> {["Core :: DOM" := 2%nat]} : gmap string nat)
               !! "UNKNOWN" = Some 5%nat) by done.
  inversion 1 as [He|c n Hc Hmax Hne|n c n2 _ _ Hne Hc _|n He]; subst.
  - by apply insert_non_empty in He.
  - apply lookup_insert_Some in Hc as [[<- _]|[_ Hc]]; [done|].
    apply lookup_singleton_Some in Hc as [<- <-].
    apply Hmax in Hu. lia.
  - apply lookup_insert_Some in Hc as [[<- _]|[_ Hc]]; [done|].
    by apply lookup_singleton_Some in Hc as [<- <-].
  - assert (Hd : (<["UNKNOWN" := 5%nat]> {["Core :: DOM" := 2%nat]} : gmap string nat)
                 !! "Core :: DOM" = Some 2%nat) by done.
    rewrite He in Hd. by apply lookup_singleton_Some in Hd as [? _].
Qed.

Lemma routing_a_and_b {D} (d : D) r :
  routing_spec a_and_b d r -> r = Split ["B"].
Proof.
  unfold a_and_b.
  assert (Hb : (<["A" := 3%nat]> {["B" := 7%nat]} : gmap string nat)
               !! "B" = Some 7%nat) by done.
  inversion 1 as [He|c n Hc Hmax Hne|n c n2 Hu _ _ _ _|n He]; subst.
  - by apply insert_non_empty in He.
  - apply lookup_insert_Some in Hc as [[<- <-]|[_ Hc]].
    + apply Hmax in Hb. lia.
    + by apply lookup_singleton_Some in Hc as [<- <-].
  - apply lookup_insert_Some in Hu as [[? _]|[_ Hu]]; [done|].
    by apply lookup_singleton_Some in Hu as [? _].
  - rewrite He in Hb. by apply lookup_singleton_Some in Hb as [? _].
Qed.

(** C8. With no changed path the classifier returns the default it was
    given, whatever it is, and leaves the world as it found it: the
    classification query is not made. *)
Theorem choose_bug_component_no_paths {D} config repo (d : D) (w : World G) :
  choose_bug_component config repo ∅ d w = (Ok (Default d), w).
Proof. unfold choose_bug_component. by destruct (decide (∅ = ∅)). Qed.

(** C9. Whatever text the files-changed collaborator prints, the set
    [get_files_changed] builds from it is not empty; from the empty text
    it is the set holding the empty string.  The classifier given that
    set therefore always makes its query: the return for an empty set
    is not taken. *)
Theorem get_files_changed_never_empty project_path (w : World G) :
  exists fs,
    get_files_changed project_path w = (Ok fs, w)
    /\ fs <> ∅
    /\ (wpt_files_changed project_path (ext w) = "" -> fs = {[ "" ]})
    /\ forall D config repo (d : D) (w' : World G),
         calls (choose_bug_component config repo fs d w').2
         = (calls w'
            ++ [CallFileInfo
                  ("bugzilla-component"
                     :: map (PyStr.path_join (gecko_path_wpt config)) (set_iter fs))])%list.
Proof.
  unfold get_files_changed, bind, ask, ret. simpl.
  eexists; split; [done|].
  assert (Hne : (list_to_set (PyStr.split PyStr.nl (wpt_files_changed project_path (ext w)))
                 : gset string) <> ∅).
  { destruct (split_cons PyStr.nl (wpt_files_changed project_path (ext w)))
      as (p & r & ->). simpl. set_solver. }
  split; [done|]. split.
  - intros ->. rewrite split_empty. simpl. set_solver.
  - intros. by rewrite choose_bug_component_world.
Qed.

(** C10. With paths to classify, the parser of the report raises the
    assertion error exactly in the way the claim says: if the first line
    of the report begins with a space, [assert current is not None]
    fails and no routing decision is returned; if every line beginning
    with a space comes after a header line, the assertion never fails
    and a routing decision is returned. *)
Theorem choose_bug_component_assertion {D} config repo fs (d : D) (w : World G) :
  fs <> ∅ ->
  let args := "bugzilla-component"
                :: map (PyStr.path_join (gecko_path_wpt config)) (set_iter fs) in
  let lines := PyStr.split PyStr.nl (mach_file_info (working_dir repo) args (ext w)) in
  (forall first rest,
      lines = first :: rest -> PyStr.startswith " " first = true ->
      (choose_bug_component config repo fs d w).1 = Raise EAssertionError)
  /\ (details_follow_header lines ->
      exists r, (choose_bug_component config repo fs d w).1 = Ok r).
Proof.
  intros Hfs args lines. subst lines args. unfold choose_bug_component.
  destruct (decide (fs = ∅)) as [|_]; [done|].
  split; unfold bind at 1 2 3; unfold record_call, ask, lift_result; simpl.
  - intros first rest Hl Hsp. rewrite Hl.
    apply (count_components_first first rest) in Hsp. by rewrite Hsp.
  - intros Hd.
    destruct (split_cons PyStr.nl
                (mach_file_info (working_dir repo)
                   ("bugzilla-component"
                      :: map (PyStr.path_join (gecko_path_wpt config)) (set_iter fs))
                   (ext w))) as (first & rest & Hl).
    rewrite Hl in Hd |- *.
    apply details_follow_header_first in Hd.
    cbn [count_components]. rewrite Hd.
    destruct (count_components_header rest ∅ (PyStr.strip first)) as [m ->].
    destruct (decide (m = ∅)) as [|Hm]; [by eexists|].
    match goal with |- context [ (bind ?a ?k) ?w' ] =>
      destruct (reduce_components d m w' Hm) as (r & Hr & _) end.
    cbn zeta in Hr. rewrite Hr. by eexists.
Qed.

(** C4. With paths to classify and a report that parses to the counts
    [components], the classifier returns a routing decision that follows
    the specification: the default for no counts; else the classification
    with the highest count, split at [" :: "]; else, when that one is
    ["UNKNOWN"], the highest of the others, or the default when there is
    no other.  For the counts UNKNOWN 5, Core :: DOM 2 that is
    Core :: DOM, and for A 3, B 7 it is B. *)
Theorem choose_bug_component_routing {D} config repo fs (d : D) (w : World G)
    (components : gmap string nat) :
  fs <> ∅ ->
  count_components
    (PyStr.split PyStr.nl
       (mach_file_info (working_dir repo)
          ("bugzilla-component"
             :: map (PyStr.path_join (gecko_path_wpt config)) (set_iter fs))
          (ext w))) ∅ None = Ok components ->
  exists r,
    (choose_bug_component config repo fs d w).1 = Ok r
    /\ routing_spec components d r
    /\ (components = unknown_and_dom -> r = Split ["Core"; "DOM"])
    /\ (components = a_and_b -> r = Split ["B"]).
Proof.
  intros Hfs Hcount. unfold choose_bug_component.
  destruct (decide (fs = ∅)) as [|_]; [done|].
  unfold bind at 1 2 3. unfold record_call, ask, lift_result. simpl.
  rewrite Hcount.
  assert (Hex : forall r, routing_spec components d r ->
                  routing_spec components d r
                  /\ (components = unknown_and_dom -> r = Split ["Core"; "DOM"])
                  /\ (components = a_and_b -> r = Split ["B"])).
  { intros r Hr. split; [done|].
    split; intros ->; [by eapply routing_unknown_and_dom|by eapply routing_a_and_b]. }
  destruct (decide (components = ∅)) as [He|Hm].
  - eexists; split; [done|]. apply Hex. by constructor.
  - match goal with |- context [ (bind ?a ?k) ?w' ] =>
      destruct (reduce_components d components w' Hm) as (r & Hr & Hspec) end.
    cbn zeta in Hr. rewrite Hr. exists r. split; [done|]. by apply Hex.
Qed.

End Classifier.

(** ** The commit translator *)

Section Translator.

Context {G : Type} `{!Collaborators G}.

Lemma in_order_app cs1 tr1 cs2 tr2 :
  in_order cs1 tr1 -> in_order cs2 tr2 -> in_order (cs1 ++ cs2) (tr1 ++ tr2).
Proof. induction 1; simpl; intros; [done|by constructor; auto..]. Qed.

(** One pass through the loop body for a commit that does not fail. *)
Lemma translate_commit_ok config ww gw sync c (w : World G) :
  commit_failure config ww gw c (ext w) = None ->
  exists w' tr,
    translate_commit config ww gw sync c w = (Ok NextIteration, w')
    /\ ext w' = commit_effect config ww gw c (ext w)
    /\ session w' = session w
    /\ bz_comments w' = bz_comments w
    /\ calls w' = (calls w ++ tr)%list
    /\ in_order [c] tr.
Proof.
  unfold commit_failure, commit_effect, translate_commit.
  unfold try_except, bind, record_call, git_cmd, ret, raise. simpl.
  destruct (git_show ww c (ext w)) as [shown|e]; [|done]. simpl.
  destruct (PyStr.endswith _ _); simpl.
  - intros _. eexists _, [CallShow c]. repeat split; simpl; try done.
    apply in_order_show, in_order_nil.
  - destruct (git_am gw _ _ (ext w)) as [[[[rc out] err]|e] g]; [|done]. simpl.
    destruct (decide (rc <> 0%Z)); [done|]. intros _. simpl.
    eexists _, [CallShow c; CallAm c _ _]. repeat split; simpl; try done.
    + by rewrite <- app_assoc.
    + apply in_order_apply, in_order_nil.
Qed.

(** One pass through the loop body for a commit that fails with [e]. *)
Lemma translate_commit_failed config ww gw sync c e (w : World G) :
  commit_failure config ww gw c (ext w) = Some e ->
  exists w' tr text,
    translate_commit config ww gw sync c w = (Ok (Return false), w')
    /\ session w' = session w
    /\ bz_comments w' = (bz_comments w ++ [(session w !! sync ≫= bug, text)])%list
    /\ (text = render_comment c e \/ text = apply_comment c e)
    /\ calls w' = (calls w ++ tr)%list
    /\ in_order [c] tr.
Proof.
  unfold commit_failure, translate_commit.
  unfold try_except, bind, record_call, git_cmd, logger, sync_bug, bz_comment,
    ret, raise. simpl.
  destruct (git_show ww c (ext w)) as [shown|e']; simpl.
  - destruct (PyStr.endswith _ _); [done|]. simpl.
    destruct (git_am gw _ _ (ext w)) as [[[[rc out] err]|e'] g]; simpl.
    + destruct (decide (rc <> 0%Z)); [|done]. intros [= <-]. simpl.
      eexists _, [CallShow c; CallAm c _ _], _.
      repeat split; simpl; try done; [by right|by rewrite <- app_assoc|].
      apply in_order_apply, in_order_nil.
    + intros [= <-].
      eexists _, [CallShow c; CallAm c _ _], _.
      repeat split; simpl; try done; [by right|by rewrite <- app_assoc|].
      apply in_order_apply, in_order_nil.
  - intros [= <-]. eexists _, [CallShow c], _.
    repeat split; simpl; try done; [by left|]. apply in_order_show, in_order_nil.
Qed.

(** The loop over commits none of which fails. *)
Lemma for_commits_all config ww gw sync commits : forall (w : World G) g',
  translate_all config ww gw commits (ext w) = Some g' ->
  exists w' tr,
    for_commits (translate_commit config ww gw sync) commits w = (Ok true, w')
    /\ ext w' = g'
    /\ session w' = session w
    /\ bz_comments w' = bz_comments w
    /\ calls w' = (calls w ++ tr)%list
    /\ in_order commits tr.
Proof.
  induction commits as [|c rest IH]; intros w g'; simpl.
  - intros [= <-]. exists w, []. rewrite app_nil_r. repeat split; constructor.
  - destruct (commit_failure config ww gw c (ext w)) eqn:Hc; [done|].
    destruct (translate_commit_ok config ww gw sync c w Hc)
      as (w1 & tr1 & Hrun & Hext & Hs & Hb & Hcalls & Ho).
    rewrite <- Hext. intros Hrest.
    destruct (IH w1 g' Hrest) as (w' & tr & Hrun' & ? & ? & ? & Hcalls' & Ho').
    exists w', (tr1 ++ tr)%list. unfold bind. rewrite Hrun.
    repeat split; try congruence.
    + by rewrite Hcalls', Hcalls, app_assoc.
    + by apply (in_order_app [c]).
Qed.

(** The loop over commits the first of which to fail is [ck]. *)
Lemma for_commits_stops config ww gw sync pre ck post e : forall (w : World G) gk,
  translate_all config ww gw pre (ext w) = Some gk ->
  commit_failure config ww gw ck gk = Some e ->
  exists w' tr text,
    for_commits (translate_commit config ww gw sync) (pre ++ ck :: post) w
    = (Ok false, w')
    /\ bz_comments w' = (bz_comments w ++ [(session w !! sync ≫= bug, text)])%list
    /\ (text = render_comment ck e \/ text = apply_comment ck e)
    /\ calls w' = (calls w ++ tr)%list
    /\ in_order (pre ++ [ck]) tr.
Proof.
  induction pre as [|c pre IH]; intros w gk; simpl.
  - intros [= <-] Hk.
    destruct (translate_commit_failed config ww gw sync ck e w Hk)
      as (w' & tr & text & Hrun & _ & ? & ? & ? & ?).
    exists w', tr, text. unfold bind. by rewrite Hrun.
  - destruct (commit_failure config ww gw c (ext w)) eqn:Hc; [done|].
    destruct (translate_commit_ok config ww gw sync c w Hc)
      as (w1 & tr1 & Hrun & Hext & Hs & Hb & Hcalls & Ho).
    rewrite <- Hext. intros Hpre Hk.
    destruct (IH w1 gk Hpre Hk) as (w' & tr & text & Hrun' & Hb' & ? & Hcalls' & Ho').
    exists w', (tr1 ++ tr)%list, text. unfold bind. rewrite Hrun.
    repeat split; try done.
    + by rewrite Hb', Hb, Hs.
    + by rewrite Hcalls', Hcalls, app_assoc.
    + by apply (in_order_app [c]).
Qed.

(** Either all commits go through, or there is a first one that fails. *)
Lemma translate_all_first_failure config ww gw commits : forall g : G,
  translate_all config ww gw commits g = None ->
  exists pre ck post gk e,
    commits = (pre ++ ck :: post)%list
    /\ translate_all config ww gw pre g = Some gk
    /\ commit_failure config ww gw ck gk = Some e.
Proof.
  induction commits as [|c rest IH]; intros g; simpl; [done|].
  destruct (commit_failure config ww gw c g) as [e|] eqn:Hc.
  - intros _. by exists [], c, rest, g, e.
  - intros (pre & ck & post & gk & e & -> & Hpre & Hk)%IH.
    exists (c :: pre), ck, post, gk, e. simpl. by rewrite Hc.
Qed.

(** Past its two assertions, [wpt_to_gecko_commits] is the loop over the
    commits [iter_commits] lists. *)
Lemma wpt_to_gecko_commits_loop config ww gw sync (w : World G) :
  branches_match ww gw sync w ->
  wpt_to_gecko_commits config ww gw sync w
  = for_commits (translate_commit config ww gw sync)
                (iter_commits ww "origin/master.." (ext w)) w.
Proof.
  intros (p1 & p2 & H1 & H2 & H3 & H4). unfold wpt_to_gecko_commits.
  unfold bind, ask, sync_wpt_worktree, sync_gecko_worktree. simpl.
  rewrite H1. unfold worktree_basename at 1. unfold ret at 1.
  rewrite H3, bool_decide_eq_true_2 by done. simpl.
  rewrite H2. simpl. by rewrite H4, bool_decide_eq_true_2.
Qed.

(** The [continue] branch.  A commit for which the translator's own test
    holds, that the text [git show] prints followed by a line feed ends in
    three line feeds, is skipped: the pass through the loop body ends
    without error and without a return, the only call made is the
    [git show] itself, so [git am] is not run, the repositories, the
    rows and the tracker are as before, and the loop goes on with the
    commits that follow. *)
Theorem translate_commit_skips_empty config ww gw sync c rest shown (w : World G) :
  git_show ww c (ext w) = GitOk shown ->
  PyStr.endswith (PyStr.nl ++ PyStr.nl ++ PyStr.nl) (shown ++ PyStr.nl) = true ->
  exists w',
    translate_commit config ww gw sync c w = (Ok NextIteration, w')
    /\ calls w' = (calls w ++ [CallShow c])%list
    /\ ext w' = ext w
    /\ session w' = session w
    /\ db w' = db w
    /\ bz_bugs w' = bz_bugs w
    /\ bz_comments w' = bz_comments w
    /\ bz_components w' = bz_components w
    /\ for_commits (translate_commit config ww gw sync) (c :: rest) w
       = for_commits (translate_commit config ww gw sync) rest w'.
Proof.
  intros Hshow Hempty.
  assert (Hstep : exists w',
             translate_commit config ww gw sync c w = (Ok NextIteration, w')
             /\ w' = mkWorld (ext w) (session w) (db w) (bz_bugs w) (bz_comments w)
                             (bz_components w) (logged w) (calls w ++ [CallShow c])).
  { unfold translate_commit, try_except, bind, record_call, git_cmd, ret. simpl.
    rewrite Hshow. simpl. rewrite Hempty. simpl. by eexists. }
  destruct Hstep as (w' & Hrun & ->). eexists. split; [exact Hrun|].
  cbn [for_commits]. unfold bind at 1. rewrite Hrun. by repeat split.
Qed.

(** C2. Past its assertions on the branch names, the translator works
    through the commits [iter_commits] lists, oldest first, in that
    order.  If none fails it returns [True], having shown, and applied
    where the patch is not empty, every commit in order, and posts no
    comment.  If [ck] is the first to fail, with [git show] or [git am]
    raising or [git am] exiting non-zero, it returns [False], the calls
    it made are those for the commits up to [ck] in order and none for a
    later commit, and it posts on the sync's bug one comment holding the
    hexsha of [ck] and the text of the error.  One of the two is always
    the case. *)
Theorem wpt_to_gecko_commits_in_order config ww gw sync (w : World G) :
  branches_match ww gw sync w ->
  let commits := iter_commits ww "origin/master.." (ext w) in
  (forall g',
      translate_all config ww gw commits (ext w) = Some g' ->
      exists w' tr,
        wpt_to_gecko_commits config ww gw sync w = (Ok true, w')
        /\ ext w' = g'
        /\ bz_comments w' = bz_comments w
        /\ calls w' = (calls w ++ tr)%list
        /\ in_order commits tr)
  /\ (forall pre ck post gk e,
        commits = (pre ++ ck :: post)%list ->
        translate_all config ww gw pre (ext w) = Some gk ->
        commit_failure config ww gw ck gk = Some e ->
        exists w' tr text,
          wpt_to_gecko_commits config ww gw sync w = (Ok false, w')
          /\ bz_comments w'
             = (bz_comments w ++ [(session w !! sync ≫= bug, text)])%list
          /\ (text = render_comment ck e \/ text = apply_comment ck e)
          /\ calls w' = (calls w ++ tr)%list
          /\ in_order (pre ++ [ck]) tr)
  /\ (translate_all config ww gw commits (ext w) = None ->
      exists pre ck post gk e,
        commits = (pre ++ ck :: post)%list
        /\ translate_all config ww gw pre (ext w) = Some gk
        /\ commit_failure config ww gw ck gk = Some e).
Proof.
  intros Hb commits. rewrite (wpt_to_gecko_commits_loop _ _ _ _ _ Hb).
  fold commits. split; [|split].
  - intros g' Hall.
    destruct (for_commits_all config ww gw sync commits w g' Hall)
      as (w' & tr & ? & ? & _ & ? & ? & ?).
    by exists w', tr.
  - intros pre ck post gk e -> Hpre Hk.
    apply (for_commits_stops config ww gw sync pre ck post e w gk Hpre Hk).
  - apply translate_all_first_failure.
Qed.

End Translator.

(** ** Entries into the orchestrator *)

Section Invocations.

Context {G : Type} `{!Collaborators G}.

Lemma quiet_ret {A} (a : A) : quiet (G := G) (ret a).
Proof. done. Qed.

Lemma quiet_raise {A} e : quiet (G := G) (raise (A := A) e).
Proof. done. Qed.

Lemma quiet_bind {A B} (m : M (G := G) A) (k : A -> M (G := G) B) :
  quiet m -> (forall a, quiet (k a)) -> quiet (bind m k).
Proof.
  intros Hm Hk w. unfold bind. specialize (Hm w).
  destruct (m w) as [[a|e] w']; simpl in *; [|done]. by rewrite Hk.
Qed.

Lemma quiet_try_except {A} (m : M (G := G) A) h :
  quiet m -> (forall e, quiet (h e)) -> quiet (try_except m h).
Proof.
  intros Hm Hh w. unfold try_except. specialize (Hm w).
  destruct (m w) as [[a|[]] w']; simpl in *; try done. by rewrite Hh.
Qed.

Lemma quiet_session_scope {A} (m : M (G := G) A) : quiet m -> quiet (session_scope m).
Proof.
  intros Hm w. unfold session_scope. specialize (Hm w).
  destruct (m w) as [[a|e] w']; simpl in *; [|done].
  by destruct (db_commit_ok (ext w')).
Qed.

Lemma quiet_git_cmd {A} (f : G -> git_result A * G) : quiet (G := G) (git_cmd f).
Proof. intros w. unfold git_cmd. by destruct (f (ext w)) as [[] ?]. Qed.

Lemma quiet_ask {A} (f : G -> A) : quiet (G := G) (ask f).
Proof. done. Qed.

Lemma quiet_logger l msg : quiet (G := G) (logger l msg).
Proof. done. Qed.

Lemma quiet_bz_comment b text : quiet (G := G) (bz_comment b text).
Proof. done. Qed.

Lemma quiet_bz_set_component b args : quiet (G := G) (bz_set_component b args).
Proof. done. Qed.

Lemma quiet_sync_bug sync : quiet (G := G) (sync_bug sync).
Proof. done. Qed.

Lemma quiet_sync_wpt_worktree sync : quiet (G := G) (sync_wpt_worktree sync).
Proof. done. Qed.

Lemma quiet_sync_gecko_worktree sync : quiet (G := G) (sync_gecko_worktree sync).
Proof. done. Qed.

Lemma quiet_py_assert b : quiet (G := G) (py_assert b).
Proof. by destruct b. Qed.

Lemma quiet_lift_result {A} (r : result A) : quiet (G := G) (lift_result r).
Proof. done. Qed.

Lemma quiet_py_index {A} (l : list A) i : quiet (G := G) (py_index l i).
Proof. unfold py_index. by destruct (l !! i). Qed.

Lemma quiet_worktree_basename p : quiet (G := G) (worktree_basename p).
Proof. by destruct p. Qed.

Lemma quiet_record_call c : is_update_sync c = false -> quiet (G := G) (record_call c).
Proof.
  intros Hc w. unfold invocations, record_call. simpl.
  rewrite filter_app, length_app. simpl.
  rewrite filter_cons_False by (by rewrite Hc). simpl. lia.
Qed.

Lemma quiet_run_ensure_worktree repo name sync branch ref :
  quiet (G := G) (run_ensure_worktree repo name sync branch ref).
Proof.
  intros w. unfold run_ensure_worktree.
  by destruct (ensure_worktree _ _ _ _ _ _ _) as [[[] ?] ?].
Qed.

Lemma quiet_set_ext (f : G -> G) :
  quiet (G := G) (fun w : World G => (Ok tt, set_ext (f (ext w)) w)).
Proof. done. Qed.

Create HintDb quiet.

#[local] Hint Resolve quiet_ret quiet_raise quiet_git_cmd quiet_ask quiet_logger
  quiet_bz_comment quiet_bz_set_component quiet_sync_bug quiet_sync_wpt_worktree
  quiet_sync_gecko_worktree quiet_py_assert quiet_lift_result quiet_py_index
  quiet_worktree_basename quiet_run_ensure_worktree quiet_set_ext : quiet.

Ltac quiet_step :=
  lazymatch goal with
  | |- quiet (bind _ _) => apply quiet_bind; [|intros ?]
  | |- quiet (try_except _ _) => apply quiet_try_except; [|intros ?]
  | |- quiet (session_scope _) => apply quiet_session_scope
  | |- quiet (record_call _) => by apply quiet_record_call
  | |- quiet (if ?b then _ else _) => destruct b
  | |- quiet (match ?x with _ => _ end) => destruct x
  | |- _ => by auto with quiet
  end.

Ltac quiet_steps := repeat quiet_step.

Lemma quiet_translate_commit config ww gw sync c :
  quiet (G := G) (translate_commit config ww gw sync c).
Proof. unfold translate_commit. quiet_steps. Qed.

Lemma quiet_for_commits (body : Commit -> M (G := G) loop_exit) commits :
  (forall c, quiet (body c)) -> quiet (for_commits body commits).
Proof.
  intros Hbody. induction commits as [|c rest IH]; simpl; [apply quiet_ret|].
  apply quiet_bind; [done|]. intros []; [done|apply quiet_ret].
Qed.

Lemma quiet_wpt_to_gecko_commits config ww gw sync :
  quiet (G := G) (wpt_to_gecko_commits config ww gw sync).
Proof.
  unfold wpt_to_gecko_commits. quiet_steps.
  apply quiet_for_commits, quiet_translate_commit.
Qed.

Lemma quiet_get_pr config gw sync : quiet (G := G) (get_pr config gw sync).
Proof. unfold get_pr. quiet_steps. Qed.

Lemma quiet_commit_manifest_update gecko_work :
  quiet (G := G) (commit_manifest_update gecko_work).
Proof. unfold commit_manifest_update. quiet_steps. Qed.

Lemma quiet_get_files_changed path : quiet (G := G) (get_files_changed path).
Proof. unfold get_files_changed. quiet_steps. Qed.

Lemma quiet_choose_bug_component {D} config repo fs (d : D) :
  quiet (G := G) (choose_bug_component config repo fs d).
Proof. unfold choose_bug_component. quiet_steps. Qed.

(** One call of [update_sync] is one entry into the orchestrator. *)
Lemma update_sync_invocations config gg gw sync (w : World G) :
  invocations (update_sync config gg gw sync w).2 = S (invocations w).
Proof.
  unfold update_sync.
  assert (Hbody : forall m : M (G := G) pyval, quiet m ->
            invocations (bind (record_call (CallUpdateSync sync)) (fun _ => m) w).2
            = S (invocations w)).
  { intros m Hm. unfold bind. simpl. rewrite Hm.
    unfold invocations. simpl. rewrite filter_app, length_app. simpl. lia. }
  apply Hbody. unfold try_get_pr.
  quiet_steps; first [apply quiet_get_pr | apply quiet_get_files_changed
                     | apply quiet_wpt_to_gecko_commits
                     | apply quiet_commit_manifest_update
                     | apply quiet_choose_bug_component ].
Qed.

End Invocations.

(** ** Intake *)

Section Intake.

Context {G : Type} `{!Collaborators G}.

(** C1, as the code has it.  [new_wpt_pr] files the tracker issue first,
    outside the transaction that creates the Sync row: the issue is there
    whatever becomes of the transaction.  When the intake returns, the
    committed row of the pull request refers to that issue; when the
    transaction fails, no row is stored, the session is back at the
    committed rows, and the issue filed stays filed. *)
Theorem new_wpt_pr_issue_precedes_transaction body (w : World G) :
  let filed := {| summary := "[wpt-sync] PR " ++ pretty (number body) ++ " - "
                             ++ title body;
                  description := pr_body body;
                  product := "Testing";
                  component := "web-platform-tests" |} in
  let r := new_wpt_pr body w in
  bz_bugs r.2 = (bz_bugs w ++ [filed])%list
  /\ (r.1 = Ok tt ->
      exists row, db r.2 !! number body = Some row
                  /\ bug row = Some (length (bz_bugs w))
                  /\ bz_bugs r.2 !! length (bz_bugs w) = Some filed)
  /\ (forall e, r.1 = Raise e -> db r.2 = db w /\ session r.2 = db w).
Proof.
  intros filed r. subst r filed.
  unfold new_wpt_pr, bind, bz_new, session_scope, session_add, set_sync_bug. simpl.
  destruct (session w !! number body) as [old|] eqn:Hrow; simpl.
  - repeat split; try done.
  - destruct (db_commit_ok (ext w)); simpl.
    + split; [done|]. split; [|done]. intros _. eexists. split.
      * rewrite lookup_alter_eq, lookup_insert_eq. done.
      * split; [done|]. by rewrite lookup_app_r, Nat.sub_diag.
    + repeat split; try done.
Qed.

End Intake.

(** ** The CI status reactor *)

Section Reactor.

Context {G : Type} `{!Collaborators G}.

Lemma status_changed_ignored config gg gw sync event (w : World G) :
  context event <> "continuous-integration/travis-ci/pr" ->
  status_changed config gg gw sync event w
  = logger Info ("Ignoring status for context " ++ context event) w.
Proof. intros H. unfold status_changed. by destruct (decide _). Qed.

Lemma status_changed_pending config gg gw sync event (w : World G) :
  context event = "continuous-integration/travis-ci/pr" ->
  state event = "pending" ->
  status_changed config gg gw sync event w
  = if is_worktree_tip gw (session w !! sync ≫= wpt_worktree) (sha event) (ext w)
    then (Ok tt, w)
    else bind (update_sync config gg gw sync) (fun _ => ret tt) w.
Proof.
  intros Hc Hs. unfold status_changed.
  destruct (decide (context event <> _)); [done|].
  destruct (decide (state event = "pending")); [|done].
  unfold bind at 1 2. unfold sync_wpt_worktree, ask. simpl.
  by destruct (is_worktree_tip _ _ _ _).
Qed.

Lemma status_changed_stale_invocations config gg gw sync event (w : World G) :
  context event = "continuous-integration/travis-ci/pr" ->
  state event = "pending" ->
  is_worktree_tip gw (session w !! sync ≫= wpt_worktree) (sha event) (ext w) = false ->
  invocations (status_changed config gg gw sync event w).2 = S (invocations w).
Proof.
  intros Hc Hs Ht. rewrite status_changed_pending, Ht by done.
  unfold bind. pose proof (update_sync_invocations config gg gw sync w) as Hi.
  by destruct (update_sync config gg gw sync w) as [[] ?].
Qed.

(** [is_worktree_tip] answers whether the worktree is at the revision. *)
Lemma is_worktree_tip_at repo path rev (g : G) :
  is_worktree_tip repo path rev g = true <-> worktree_at repo path rev g.
Proof.
  unfold is_worktree_tip, worktree_at. split.
  - destruct path as [p|]; [|done].
    destruct (decide (p = "")) as [|Hp]; [done|].
    destruct (repo_heads repo g !! PyStr.basename p) as [h|] eqn:Hh; [|done].
    intros ->%bool_decide_eq_true_1. by exists p.
  - intros (p & -> & Hp & Hh).
    destruct (decide (p = "")); [done|]. rewrite Hh.
    by apply bool_decide_eq_true_2.
Qed.

Lemma is_worktree_tip_not_at repo path rev (g : G) :
  is_worktree_tip repo path rev g = false <-> ~ worktree_at repo path rev g.
Proof.
  rewrite <- is_worktree_tip_at. by destruct (is_worktree_tip repo path rev g).
Qed.

(** C5. An event whose context is not the recognized one is logged and
    dropped, and the orchestrator is not entered.  A pending event of the
    recognized context enters the orchestrator, once, exactly when the
    sync's web-platform-tests worktree is not at the event's sha: when no
    worktree path is recorded on the sync, or the path is empty, or the
    branch named by the last component of the path does not exist in the
    clone, or the head of that branch is another commit.  When the head
    of that branch is the event's sha the reactor changes nothing.  A
    passed event changes nothing. *)
Theorem status_changed_reacts config gg gw sync event (w : World G) :
  let path := session w !! sync ≫= wpt_worktree in
  let r := status_changed config gg gw sync event w in
  (context event <> "continuous-integration/travis-ci/pr" ->
   r = (Ok tt, (logger Info ("Ignoring status for context " ++ context event) w).2)
   /\ invocations r.2 = invocations w)
  /\ (context event = "continuous-integration/travis-ci/pr" ->
      state event = "pending" ->
      (~ worktree_at gw path (sha event) (ext w) ->
       r = bind (update_sync config gg gw sync) (fun _ => ret tt) w
       /\ invocations r.2 = S (invocations w))
      /\ (worktree_at gw path (sha event) (ext w) -> r = (Ok tt, w))
      /\ (invocations r.2 = S (invocations w)
          <-> ~ worktree_at gw path (sha event) (ext w))
      /\ (invocations r.2 = S (invocations w)
          <-> path = None \/ path = Some ""
              \/ exists p, path = Some p
                           /\ repo_heads gw (ext w) !! PyStr.basename p
                              <> Some (sha event)))
  /\ (path = None -> ~ worktree_at gw path (sha event) (ext w))
  /\ (context event = "continuous-integration/travis-ci/pr" ->
      state event = "passed" -> r = (Ok tt, w)).
Proof.
  intros path r. subst r. split; [|split; [|split]].
  - intros Hc. by rewrite status_changed_ignored.
  - intros Hc Hs.
    pose proof (status_changed_stale_invocations config gg gw sync event w Hc Hs) as Hi.
    pose proof (is_worktree_tip_at gw path (sha event) (ext w)) as Hat.
    pose proof (is_worktree_tip_not_at gw path (sha event) (ext w)) as Hnot.
    rewrite status_changed_pending in Hi |- * by done. fold path in Hi |- *.
    assert (Hiff : invocations
                     (if is_worktree_tip gw path (sha event) (ext w)
                      then (Ok tt, w)
                      else bind (update_sync config gg gw sync) (fun _ => ret tt) w).2
                   = S (invocations w)
                   <-> ~ worktree_at gw path (sha event) (ext w)).
    { destruct (is_worktree_tip gw path (sha event) (ext w)); simpl.
      - split; [lia|]. intros Hn. destruct Hn. by apply Hat.
      - split; [by intros _; apply Hnot|by auto]. }
    split; [|split; [|split]].
    + intros Hn. apply Hnot in Hn. rewrite Hn in Hi |- *.
      split; [done|by apply Hi].
    + intros Ha. apply Hat in Ha. by rewrite Ha.
    + exact Hiff.
    + rewrite Hiff. unfold worktree_at. split.
      * intros Hn. destruct path as [p|]; [|by left]. right.
        destruct (decide (p = "")) as [->|Hp]; [by left|]. right.
        exists p. split; [done|]. intros Hh. apply Hn. by exists p.
      * intros [->|[->|(p & -> & Hh)]].
        -- by intros (p & ? & _).
        -- by intros (p & [= <-] & ? & _).
        -- by intros (p' & [= <-] & _ & ?).
  - intros Hn (p & Hp & _). by rewrite Hn in Hp.
  - intros Hc Hs. unfold status_changed.
    destruct (decide (context event <> _)); [done|].
    destruct (decide (state event = "pending")); [congruence|].
    by destruct (decide (state event = "passed")).
Qed.

(** C3, as the code has it.  Two calls in a row with the same pending
    event of the recognized context, the worktree not at the event's sha
    before the first: the first call enters the orchestrator once.  If
    that run leaves the head of the worktree's branch at the event's sha,
    the second call changes nothing and the orchestrator has been entered
    once in all; if it does not, the second call enters the orchestrator
    again. *)
Theorem status_changed_twice config gg gw sync event (w : World G) :
  context event = "continuous-integration/travis-ci/pr" ->
  state event = "pending" ->
  ~ worktree_at gw (session w !! sync ≫= wpt_worktree) (sha event) (ext w) ->
  let w1 := (status_changed config gg gw sync event w).2 in
  let r2 := status_changed config gg gw sync event w1 in
  invocations w1 = S (invocations w)
  /\ (worktree_at gw (session w1 !! sync ≫= wpt_worktree) (sha event) (ext w1) ->
      r2 = (Ok tt, w1) /\ invocations r2.2 = S (invocations w))
  /\ (~ worktree_at gw (session w1 !! sync ≫= wpt_worktree) (sha event) (ext w1) ->
      invocations r2.2 = S (S (invocations w))).
Proof.
  intros Hc Hs Ht%is_worktree_tip_not_at w1 r2.
  assert (H1 : invocations w1 = S (invocations w))
    by by apply status_changed_stale_invocations.
  split; [done|]. split.
  - intros Hat%is_worktree_tip_at. subst r2.
    rewrite status_changed_pending by done. by rewrite Hat.
  - intros Hat%is_worktree_tip_not_at. subst r2.
    rewrite status_changed_stale_invocations by done. by rewrite H1.
Qed.

End Reactor.

(** ** The orchestrator *)

Section Orchestrator.

Context {G : Type} `{!Collaborators G}.

(** X4. [update_sync] hands back a boolean only when [get_pr] raised, and
    then it is [False]; every other return, after a failed translation
    as after a completed run, is [None].  It never returns [True]. *)
Lemma update_sync_false_only_from_get_pr config gg gw sync (w : World G) b :
  (update_sync config gg gw sync w).1 = Ok (PyBool b) ->
  b = false
  /\ exists e w',
       get_pr config gw sync (record_call (CallUpdateSync sync) w).2
       = (Raise (EGitCommandError e), w').
Proof.
  unfold update_sync, session_scope, try_get_pr, try_except, bind, ret. simpl.
  destruct (get_pr config gw sync _) as [[[wpt_work branch]|e] w1] eqn:Hget; simpl.
  - repeat (case_match; simplify_eq/=; try done).
  - destruct e as [e| | | |]; simpl; try done.
    destruct (db_commit_ok (ext w1)); simpl; [|done]. intros [= <-]. eauto.
Qed.

(** X5. When [get_pr] raises [GitCommandError] and the session commits,
    [update_sync] returns [False] and its last comment on the sync's bug
    holds the pull request number and the text of the error. *)
Lemma update_sync_fetch_failure config gg gw sync (w w1 : World G) e :
  get_pr config gw sync (record_call (CallUpdateSync sync) w).2
  = (Raise (EGitCommandError e), w1) ->
  db_commit_ok (ext w1) = true ->
  let r := update_sync config gg gw sync w in
  r.1 = Ok (PyBool false)
  /\ bz_comments r.2
     = (bz_comments w1
        ++ [(session w1 !! sync ≫= bug,
             ("Downstreaming from web-platform-tests failed because obtaining "
              ++ "PR " ++ pretty sync ++ " failed:" ++ PyStr.nl ++ gce_str e)%string)])%list.
Proof.
  intros Hget Hok.
  unfold update_sync, session_scope, try_get_pr, try_except, bind, ret. simpl.
  simpl in Hget. rewrite Hget. simpl. by rewrite Hok.
Qed.

End Orchestrator.

(** ** The module run on scripted collaborators *)

Import Scripted.

(** C1, as stated, fails: with a state store that refuses the commit,
    the intake of pull request 9 raises, stores no Sync row, and has
    filed the tracker issue all the same. *)
Lemma new_wpt_pr_orphan_issue :
  let w := blank_world store_down in
  let r := new_wpt_pr pr9 w in
  r.1 = Raise EStateStoreFailure
  /\ db r.2 = ∅
  /\ bz_bugs w = []
  /\ bz_bugs r.2 = [{| summary := "[wpt-sync] PR 9 - Test PR";
                       description := "blah blah body";
                       product := "Testing";
                       component := "web-platform-tests" |}].
Proof. vm_compute. by repeat split. Qed.

(** C3, as stated, fails: when the remote cannot be reached the first
    call enters the orchestrator, which comments and gives up; nothing
    upstream changes, the worktree is still not at the event's sha, and
    the second call with the same event enters the orchestrator again. *)
Lemma status_changed_twice_reenters :
  let w := world_of offline in
  let w1 := (status_changed config GitGecko GitWpt 9 pending9 w).2 in
  let w2 := (status_changed config GitGecko GitWpt 9 pending9 w1).2 in
  context pending9 = "continuous-integration/travis-ci/pr"
  /\ state pending9 = "pending"
  /\ ext w1 = ext w
  /\ invocations w = 0%nat
  /\ invocations w2 = 2%nat
  /\ is_worktree_tip GitWpt (session w1 !! 9%Z ≫= wpt_worktree) (sha pending9) (ext w1)
     = false.
Proof. vm_compute. by repeat split. Qed.

(** C6, on the code: a translation that stops at a patch that does not
    apply is commented on the bug, and [update_sync] then returns
    [None], which is also what it returns after a run that went
    through; only a failure of [get_pr] is answered with [False]. *)
Theorem update_sync_failure_returns_none :
  let failed := update_sync config GitGecko GitWpt 9 (world_of conflicting) in
  let passed := update_sync config GitGecko GitWpt 9 (world_of healthy) in
  let unreachable := update_sync config GitGecko GitWpt 9 (world_of offline) in
  failed.1 = Ok PyNone
  /\ bz_comments failed.2
     = [(Some 0%nat,
         apply_comment commit3
           {| gce_command := ["am"; "--directory=testing/web-platform/tests"; "-"];
              gce_status := 1;
              gce_stderr := "error: patch does not apply";
              gce_stdout := "" |})]
  /\ passed.1 = Ok PyNone
  /\ bz_comments passed.2 = []
  /\ failed.1 = passed.1
  /\ unreachable.1 = Ok (PyBool false).
Proof. vm_compute. by repeat split. Qed.

(** C7, on the code: a commit made with [git commit --allow-empty] has a
    rendered patch with no content change, headers and subject only, yet
    the translator does not skip it.  The text followed by a line feed
    ends in two line feeds, not three, so the test on line 184 is false;
    the patch is handed to [git am], which refuses it with exit code 128
    and [Patch is empty.]; the translator comments on the bug and returns
    [False], and the commit after it is never looked at. *)
Theorem wpt_to_gecko_commits_empty_commit_not_skipped :
  let patch := AsGit.allow_empty_text ++ PyStr.nl in
  let r :=
    wpt_to_gecko_commits (Collaborators0 := AsGit.as_git) config wpt_work
                         gecko_work 9 AsGit.start in
  iter_commits (Collaborators := AsGit.as_git) wpt_work "origin/master.."
               (ext AsGit.start)
  = [AsGit.allow_empty; AsGit.change]
  /\ git_show (Collaborators := AsGit.as_git) wpt_work AsGit.allow_empty
              (ext AsGit.start)
     = GitOk AsGit.allow_empty_text
  /\ semantically_empty patch = true
  /\ PyStr.endswith (PyStr.nl ++ PyStr.nl ++ PyStr.nl) patch = false
  /\ r.1 = Ok false
  /\ calls r.2
     = [CallShow AsGit.allow_empty;
        CallAm AsGit.allow_empty "--directory=testing/web-platform/tests" patch]
  /\ AsGit.am_applied (ext r.2) = []
  /\ bz_comments r.2
     = [(Some 0%nat,
         "Downstreaming from web-platform-tests failed because applying patch "
         ++ "from b2b928f0e5541bc6bbdf28d7fed14d5c1535818e failed:" ++ PyStr.nl
         ++ "Patch is empty.")].
Proof. vm_compute. by repeat split. Qed.

Lemma new_wpt_pr_issue_precedes_transaction_witness :
  exists row,
    db (new_wpt_pr pr9 (blank_world healthy)).2 !! 9%Z = Some row
    /\ bug row = Some 0%nat.
Proof.
  destruct (new_wpt_pr_issue_precedes_transaction pr9 (blank_world healthy))
    as (_ & Hok & _).
  destruct (Hok eq_refl) as (row & Hrow & Hbug & _).
  exists row. split; [exact Hrow|exact Hbug].
Defined.

Lemma wpt_to_gecko_commits_in_order_witness :
  branches_match wpt_work gecko_work 9 (translating healthy)
  /\ (exists w' tr,
         wpt_to_gecko_commits config wpt_work gecko_work 9 (translating healthy)
         = (Ok true, w')
         /\ in_order [commit1; commit2; commit3] tr)
  /\ branches_match wpt_work gecko_work 9 (translating conflicting)
  /\ (exists w' tr text,
         wpt_to_gecko_commits config wpt_work gecko_work 9 (translating conflicting)
         = (Ok false, w')
         /\ bz_comments w' = [(Some 0%nat, text)]
         /\ in_order [commit1; commit2; commit3] tr).
Proof.
  assert (Hh : branches_match wpt_work gecko_work 9 (translating healthy)).
  { exists "/worktrees/web-platform-tests/PR_9", "/worktrees/gecko/PR_9".
    vm_compute. by repeat split. }
  assert (Hc : branches_match wpt_work gecko_work 9 (translating conflicting)).
  { exists "/worktrees/web-platform-tests/PR_9", "/worktrees/gecko/PR_9".
    vm_compute. by repeat split. }
  split; [exact Hh|]. split; [|split; [exact Hc|]].
  - destruct (wpt_to_gecko_commits_in_order config wpt_work gecko_work 9
                (translating healthy) Hh) as (Hall & _ & _).
    edestruct Hall as (w' & tr & Hrun & _ & _ & _ & Ho).
    { vm_compute. reflexivity. }
    exists w', tr. split; [exact Hrun|exact Ho].
  - destruct (wpt_to_gecko_commits_in_order config wpt_work gecko_work 9
                (translating conflicting) Hc) as (_ & Hstop & _).
    edestruct (Hstop [commit1; commit2] commit3 [])
      as (w' & tr & text & Hrun & Hcomment & _ & _ & Ho).
    { reflexivity. }
    { vm_compute. reflexivity. }
    { vm_compute. reflexivity. }
    exists w', tr, text. split; [exact Hrun|]. split; [exact Hcomment|exact Ho].
Defined.

Lemma status_changed_twice_witness :
  let w := world_of healthy in
  let w1 := (status_changed config GitGecko GitWpt 9 pending9 w).2 in
  ~ worktree_at GitWpt (session w !! 9%Z ≫= wpt_worktree) (sha pending9) (ext w)
  /\ repo_heads GitWpt (ext w1) !! "PR_9" = Some (sha pending9)
  /\ invocations w1 = S (invocations w)
  /\ status_changed config GitGecko GitWpt 9 pending9 w1 = (Ok tt, w1).
Proof.
  intros w w1.
  assert (Ht : ~ worktree_at GitWpt (session w !! 9%Z ≫= wpt_worktree)
                   (sha pending9) (ext w)).
  { intros (p & Hp & _). vm_compute in Hp. discriminate Hp. }
  assert (Hhead : repo_heads GitWpt (ext w1) !! "PR_9" = Some (sha pending9))
    by (vm_compute; reflexivity).
  split; [exact Ht|]. split; [exact Hhead|].
  destruct (status_changed_twice config GitGecko GitWpt 9 pending9 w
              eq_refl eq_refl Ht) as (Hone & Hnoop & _).
  split; [exact Hone|]. apply Hnoop.
  exists "/worktrees/web-platform-tests/PR_9".
  split; [vm_compute; reflexivity|]. split; [discriminate|exact Hhead].
Defined.

Lemma choose_bug_component_routing_witness :
  ({[ "dom/a.html" ]} : gset string) <> ∅
  /\ (choose_bug_component config gecko_work {[ "dom/a.html" ]} default_component
        (translating ambiguous)).1
     = Ok (Split ["Core"; "DOM"]).
Proof.
  assert (Hfs : ({[ "dom/a.html" ]} : gset string) <> ∅) by set_solver.
  split; [exact Hfs|].
  destruct (choose_bug_component_routing config gecko_work {[ "dom/a.html" ]}
              default_component (translating ambiguous) unknown_and_dom Hfs)
    as (r & Hrun & _ & Hex & _).
  { vm_compute. reflexivity. }
  rewrite Hrun. f_equal. apply Hex. reflexivity.
Defined.

Lemma status_changed_reacts_witness :
  repo_heads GitWpt (ext Settled.settled) !! "PR_9" = Some (sha pending9)
  /\ status_changed config GitGecko GitWpt 9 pending9 Settled.settled
     = (Ok tt, Settled.settled)
  /\ invocations
       (status_changed config GitGecko GitWpt 9 Settled.pending_other
          Settled.settled).2
     = S (invocations Settled.settled)
  /\ invocations (status_changed config GitGecko GitWpt 9 pending9
                    (world_of healthy)).2
     = S (invocations (world_of healthy)).
Proof.
  assert (Hhead : repo_heads GitWpt (ext Settled.settled) !! "PR_9"
                  = Some (sha pending9)) by (vm_compute; reflexivity).
  assert (Hpath : session Settled.settled !! 9%Z ≫= wpt_worktree
                  = Some "/worktrees/web-platform-tests/PR_9")
    by (vm_compute; reflexivity).
  split; [exact Hhead|]. split; [|split].
  - destruct (status_changed_reacts config GitGecko GitWpt 9 pending9
                Settled.settled) as (_ & Hpending & _).
    destruct (Hpending eq_refl eq_refl) as (_ & Hsame & _).
    apply Hsame. exists "/worktrees/web-platform-tests/PR_9".
    split; [exact Hpath|]. split; [discriminate|exact Hhead].
  - destruct (status_changed_reacts config GitGecko GitWpt 9 Settled.pending_other
                Settled.settled) as (_ & Hpending & _).
    destruct (Hpending eq_refl eq_refl) as (Hstale & _).
    apply Hstale. intros (p & Hp & _ & Hh).
    rewrite Hpath in Hp. injection Hp as <-.
    change (PyStr.basename "/worktrees/web-platform-tests/PR_9") with "PR_9" in Hh.
    rewrite Hhead in Hh. discriminate Hh.
  - destruct (status_changed_reacts config GitGecko GitWpt 9 pending9
                (world_of healthy)) as (_ & Hpending & Hnone & _).
    destruct (Hpending eq_refl eq_refl) as (Hstale & _).
    apply Hstale, Hnone. vm_compute. reflexivity.
Defined.

Lemma get_files_changed_never_empty_witness :
  exists fs,
    get_files_changed "/worktrees/web-platform-tests/PR_9" (translating healthy)
    = (Ok fs, translating healthy)
    /\ fs <> ∅.
Proof.
  destruct (get_files_changed_never_empty "/worktrees/web-platform-tests/PR_9"
              (translating healthy)) as (fs & Hrun & Hne & _).
  exists fs. split; [exact Hrun|exact Hne].
Defined.

Lemma choose_bug_component_assertion_witness :
  ({[ "dom/a.html" ]} : gset string) <> ∅
  /\ (choose_bug_component config gecko_work {[ "dom/a.html" ]} default_component
        (translating indented)).1
     = Raise EAssertionError
  /\ exists r,
       (choose_bug_component config gecko_work {[ "dom/a.html" ]} default_component
          (translating healthy)).1
       = Ok r.
Proof.
  assert (Hfs : ({[ "dom/a.html" ]} : gset string) <> ∅) by set_solver.
  split; [exact Hfs|]. split.
  - destruct (choose_bug_component_assertion config gecko_work {[ "dom/a.html" ]}
                default_component (translating indented) Hfs) as (Hfail & _).
    eapply Hfail; vm_compute; reflexivity.
  - destruct (choose_bug_component_assertion config gecko_work {[ "dom/a.html" ]}
                default_component (translating healthy) Hfs) as (_ & Hpass).
    apply Hpass.
    assert (Hl : PyStr.split PyStr.nl
                   (mach_file_info (working_dir gecko_work)
                      ("bugzilla-component"
                         :: map (PyStr.path_join (gecko_path_wpt config))
                              (set_iter {[ "dom/a.html" ]}))
                      (ext (translating healthy)))
                 = ["Core :: DOM"; "  testing/web-platform/tests/dom/a.html"; ""])
      by (vm_compute; reflexivity).
    rewrite Hl. apply details_follow_header_first. reflexivity.
Defined.

(** ** Further properties of the routing classifier *)

Lemma join_cons_char sep c p r :
  PyStr.join sep (String c p :: r) = String c (PyStr.join sep (p :: r)).
Proof. by destruct r. Qed.

Lemma startswith_cons_nil a p : PyStr.startswith (String a p) "" = false.
Proof. reflexivity. Qed.

Lemma startswith_cons_cons a p b s :
  PyStr.startswith (String a p) (String b s)
  = if decide (a = b) then PyStr.startswith p s else false.
Proof. reflexivity. Qed.

Lemma startswith_drop p : forall s,
  PyStr.startswith p s = true -> p ++ RevRe.drop (String.length p) s = s.
Proof.
  induction p as [|a p IH]; intros s; [done|].
  destruct s as [|b s]; [by rewrite startswith_cons_nil|].
  rewrite startswith_cons_cons. cbn [String.length RevRe.drop].
  destruct (decide (a = b)) as [->|]; [|done]. intros H.
  change (String b (p ++ RevRe.drop (String.length p) s) = String b s).
  by rewrite IH.
Qed.

Lemma drop_empty n : RevRe.drop n "" = "".
Proof. by destruct n. Qed.

(** Joining the pieces of a split with the separator gives the text back. *)
Lemma split_go_join sep : sep <> "" -> forall s k,
  PyStr.join sep ((PyStr.split_go sep k s).1 :: (PyStr.split_go sep k s).2)
  = RevRe.drop k s.
Proof.
  intros Hsep. induction s as [|c s IH]; intros k.
  - by rewrite drop_empty.
  - cbn [PyStr.split_go]. destruct k as [|k]; [|apply IH].
    destruct (PyStr.startswith sep (String c s)) eqn:Hst.
    + specialize (IH (String.length sep - 1)%nat).
      destruct (PyStr.split_go sep (String.length sep - 1) s) as [p r].
      cbn [fst snd] in *. change (sep ++ PyStr.join sep (p :: r) = String c s).
      rewrite IH. apply startswith_drop in Hst.
      destruct sep as [|a sep]; [done|]. cbn in Hst |- *.
      by rewrite Nat.sub_0_r.
    + specialize (IH 0%nat). destruct (PyStr.split_go sep 0 s) as [p r].
      cbn [fst snd] in *. rewrite join_cons_char. by rewrite IH.
Qed.

Lemma join_split sep s : sep <> "" -> PyStr.join sep (PyStr.split sep s) = s.
Proof.
  intros Hsep. unfold PyStr.split.
  pose proof (split_go_join sep Hsep s 0) as H.
  by destruct (PyStr.split_go sep 0 s).
Qed.

Lemma total_count_increment (components : gmap string nat) c :
  total_count (<[c := S (default 0%nat (components !! c))]> components)
  = S (total_count components).
Proof.
  unfold total_count.
  assert (Hcomm : forall (j1 j2 : string) (z1 z2 y : nat),
             (z1 + (z2 + y) = z2 + (z1 + y))%nat) by (intros; lia).
  destruct (components !! c) as [n|] eqn:Hc; simpl.
  - rewrite <- insert_delete_eq.
    rewrite map_fold_insert_L; [|by intros; apply Hcomm|by rewrite lookup_delete_eq].
    rewrite <- (insert_id components c n) at 2 by done.
    rewrite <- (insert_delete_eq components).
    rewrite (map_fold_insert_L _ _ c n);
      [|by intros; apply Hcomm|by rewrite lookup_delete_eq].
    done.
  - rewrite map_fold_insert_L; [done|by intros; apply Hcomm|done].
Qed.

Lemma count_components_total lines : forall components current m,
  count_components lines components current = Ok m ->
  total_count m = (total_count components + detail_lines lines)%nat.
Proof.
  unfold detail_lines.
  induction lines as [|line rest IH]; intros components current m; simpl.
  - intros [= <-]. lia.
  - destruct (PyStr.startswith " " line) eqn:Hs.
    + rewrite filter_cons_True by done. simpl.
      destruct current as [c|]; [|done].
      intros H%IH. rewrite H, total_count_increment. lia.
    + rewrite filter_cons_False by (by rewrite Hs). apply IH.
Qed.

Lemma count_components_keys (Q : string -> Prop) lines :
  forall components current m,
    (forall c n, components !! c = Some n -> (0 < n)%nat /\ Q c) ->
    (forall c, current = Some c -> Q c) ->
    (forall h, h ∈ lines -> PyStr.startswith " " h = false -> Q (PyStr.strip h)) ->
    count_components lines components current = Ok m ->
    forall c n, m !! c = Some n -> (0 < n)%nat /\ Q c.
Proof.
  induction lines as [|line rest IH]; intros components current m Hm Hcur Hl; simpl.
  - by intros [= <-].
  - destruct (PyStr.startswith " " line) eqn:Hs.
    + destruct current as [cur|]; [|done].
      apply IH; [|done|by intros; apply Hl; [right|]].
      intros c n [[<- <-]|[_ Hc]]%lookup_insert_Some; [|by apply Hm].
      split; [lia|by apply Hcur].
    + apply IH; [done| |by intros; apply Hl; [right|]].
      intros c [= <-]. apply Hl; [left|done].
Qed.

Section ClassifierMore.

Context {G : Type} `{!Collaborators G}.

(** X1. Whatever the paths and the report, the classifier never routes
    to the sentinel: the list it returns is never [["UNKNOWN"]], and
    joined with [" :: "] it is never ["UNKNOWN"]. *)
Theorem choose_bug_component_never_unknown {D} config repo fs (d : D)
    (w : World G) parts :
  (choose_bug_component config repo fs d w).1 = Ok (Split parts) ->
  PyStr.join " :: " parts <> "UNKNOWN" /\ parts <> ["UNKNOWN"].
Proof.
  intros Hrun.
  assert (Hj : PyStr.join " :: " parts <> "UNKNOWN"); [|split; [done|by intros ->]].
  revert Hrun. unfold choose_bug_component.
  destruct (decide (fs = ∅)) as [|_]; [done|].
  unfold bind at 1 2 3. unfold record_call, ask, lift_result. simpl.
  destruct (count_components _ _ _) as [components|e]; [|done].
  destruct (decide (components = ∅)) as [|Hm]; [done|].
  match goal with |- context [ (bind ?a ?k) ?w' ] =>
    destruct (reduce_components d components w' Hm) as (r & Hr & Hspec) end.
  cbn zeta in Hr. rewrite Hr. simpl. intros [= ->].
  inversion Hspec as [|c n _ _ Hc Heq|n c n2 _ _ Hc _ _ Heq|]; subst;
    by rewrite join_split.
Qed.

(** X2. When the report parses, every detail line has been counted once:
    the counts add up to the number of lines that begin with a space. *)
Theorem count_components_counts_every_detail_line lines m :
  count_components lines ∅ None = Ok m ->
  total_count m = detail_lines lines.
Proof.
  intros H%count_components_total. by rewrite H.
Qed.

(** X3. When the report parses, every classification that is counted has
    a count of at least one and is the stripped text of a header line of
    the report: a header without detail lines is no candidate. *)
Theorem count_components_keys_are_headers lines m c n :
  count_components lines ∅ None = Ok m ->
  m !! c = Some n ->
  (0 < n)%nat
  /\ exists h, h ∈ lines /\ PyStr.startswith " " h = false /\ c = PyStr.strip h.
Proof.
  intros Hrun.
  apply (count_components_keys
           (fun c => exists h, h ∈ lines /\ PyStr.startswith " " h = false
                               /\ c = PyStr.strip h) lines ∅ None m);
    [done|done| |done].
  intros h Hh Hs. by exists h.
Qed.

End ClassifierMore.

(** ** What the orchestrator does to the tracker *)

Section Frames.

Context {G : Type} `{!Collaborators G} {X : Type} (f : World G -> X).

Hypothesis f_ext : forall g w, f (set_ext g w) = f w.
Hypothesis f_session : forall s w, f (set_session s w) = f w.
Hypothesis f_db : forall s w, f (set_db s w) = f w.
Hypothesis f_logger : forall l msg w, f (logger l msg w).2 = f w.
Hypothesis f_call : forall c w, f (record_call c w).2 = f w.

Lemma keeps_ret {A} (a : A) : keeps f (ret a).
Proof. done. Qed.

Lemma keeps_raise {A} e : keeps f (raise (A := A) e).
Proof. done. Qed.

Lemma keeps_bind {A B} (m : M (G := G) A) (k : A -> M (G := G) B) :
  keeps f m -> (forall a, keeps f (k a)) -> keeps f (bind m k).
Proof.
  intros Hm Hk w. unfold bind. specialize (Hm w).
  destruct (m w) as [[a|e] w']; simpl in *; [|done]. by rewrite Hk.
Qed.

Lemma keeps_try_except {A} (m : M (G := G) A) h :
  keeps f m -> (forall e, keeps f (h e)) -> keeps f (try_except m h).
Proof.
  intros Hm Hh w. unfold try_except. specialize (Hm w).
  destruct (m w) as [[a|[]] w']; simpl in *; try done. by rewrite Hh.
Qed.

Lemma keeps_session_scope {A} (m : M (G := G) A) :
  keeps f m -> keeps f (session_scope m).
Proof.
  intros Hm w. unfold session_scope. specialize (Hm w).
  destruct (m w) as [[a|e] w']; simpl in *.
  - destruct (db_commit_ok (ext w')); simpl; by rewrite ?f_db, ?f_session.
  - by rewrite f_session.
Qed.

Lemma keeps_git_cmd {A} (c : G -> git_result A * G) : keeps f (git_cmd c).
Proof. intros w. unfold git_cmd. by destruct (c (ext w)) as [[] ?]; simpl. Qed.

Lemma keeps_ask {A} (q : G -> A) : keeps f (ask q).
Proof. done. Qed.

Lemma keeps_logger l msg : keeps f (logger l msg).
Proof. intros w. apply f_logger. Qed.

Lemma keeps_record_call c : keeps f (record_call c).
Proof. intros w. apply f_call. Qed.

Lemma keeps_sync_bug sync : keeps f (sync_bug sync).
Proof. done. Qed.

Lemma keeps_sync_wpt_worktree sync : keeps f (sync_wpt_worktree sync).
Proof. done. Qed.

Lemma keeps_sync_gecko_worktree sync : keeps f (sync_gecko_worktree sync).
Proof. done. Qed.

Lemma keeps_py_assert b : keeps f (py_assert b).
Proof. by destruct b. Qed.

Lemma keeps_lift_result {A} (r : result A) : keeps f (lift_result r).
Proof. done. Qed.

Lemma keeps_py_index {A} (l : list A) i : keeps f (py_index l i).
Proof. unfold py_index. by destruct (l !! i). Qed.

Lemma keeps_worktree_basename p : keeps f (worktree_basename p).
Proof. by destruct p. Qed.

Lemma keeps_run_ensure_worktree repo name sync branch ref :
  keeps f (run_ensure_worktree repo name sync branch ref).
Proof.
  intros w. unfold run_ensure_worktree.
  destruct (ensure_worktree _ _ _ _ _ _ _) as [[[] ?] ?]; simpl;
    by rewrite f_ext, f_session.
Qed.

Lemma keeps_set_ext (h : G -> G) :
  keeps f (fun w : World G => (Ok tt, set_ext (h (ext w)) w)).
Proof. intros w. simpl. apply f_ext. Qed.

Ltac keeps_step :=
  lazymatch goal with
  | |- keeps _ (bind _ _) => apply keeps_bind; [|intros ?]
  | |- keeps _ (try_except _ _) => apply keeps_try_except; [|intros ?]
  | |- keeps _ (session_scope _) => apply keeps_session_scope
  | |- keeps _ (if ?b then _ else _) => destruct b
  | |- keeps _ (match ?x with _ => _ end) => destruct x
  | |- _ =>
      first [ apply keeps_ret | apply keeps_raise | apply keeps_git_cmd
            | apply keeps_ask | apply keeps_logger | apply keeps_record_call
            | apply keeps_sync_bug | apply keeps_sync_wpt_worktree
            | apply keeps_sync_gecko_worktree | apply keeps_py_assert
            | apply keeps_lift_result | apply keeps_py_index
            | apply keeps_worktree_basename | apply keeps_run_ensure_worktree
            | apply keeps_set_ext | assumption ]
  end.

Lemma keeps_get_pr config gw sync : keeps f (get_pr config gw sync).
Proof. unfold get_pr. repeat keeps_step. Qed.

Lemma keeps_commit_manifest_update gecko_work :
  keeps f (commit_manifest_update gecko_work).
Proof. unfold commit_manifest_update. repeat keeps_step. Qed.

Lemma keeps_get_files_changed path : keeps f (get_files_changed path).
Proof. unfold get_files_changed. repeat keeps_step. Qed.

Lemma keeps_choose_bug_component {D} config repo fs (d : D) :
  keeps f (choose_bug_component config repo fs d).
Proof. unfold choose_bug_component. repeat keeps_step. Qed.

Lemma keeps_for_commits (body : Commit -> M (G := G) loop_exit) commits :
  (forall c, keeps f (body c)) -> keeps f (for_commits body commits).
Proof.
  intros Hbody. induction commits as [|c rest IH]; simpl; [apply keeps_ret|].
  apply keeps_bind; [done|]. intros []; [done|apply keeps_ret].
Qed.

Hypothesis f_comment : forall b text w, f (bz_comment b text w).2 = f w.

Lemma keeps_bz_comment b text : keeps f (bz_comment b text).
Proof. intros w. apply f_comment. Qed.

Lemma keeps_translate_commit config ww gw sync c :
  keeps f (translate_commit config ww gw sync c).
Proof.
  unfold translate_commit. repeat (first [apply keeps_bz_comment | keeps_step]).
Qed.

Lemma keeps_wpt_to_gecko_commits config ww gw sync :
  keeps f (wpt_to_gecko_commits config ww gw sync).
Proof.
  unfold wpt_to_gecko_commits. repeat keeps_step.
  apply keeps_for_commits. intros c. apply keeps_translate_commit.
Qed.

End Frames.

Section Tracker.

Context {G : Type} `{!Collaborators G}.

(** Past its assertions the translator is its loop; short of that it
    raises and leaves the world as it found it. *)
Lemma wpt_to_gecko_commits_cases config ww gw sync (w : World G) :
  wpt_to_gecko_commits config ww gw sync w
  = for_commits (translate_commit config ww gw sync)
                (iter_commits ww "origin/master.." (ext w)) w
  \/ exists e, wpt_to_gecko_commits config ww gw sync w = (Raise e, w).
Proof.
  unfold wpt_to_gecko_commits.
  unfold bind, ask, sync_wpt_worktree, sync_gecko_worktree. simpl.
  destruct (session w !! sync ≫= wpt_worktree) as [p1|]; simpl; [|eauto].
  destruct (bool_decide _); simpl; [|eauto].
  destruct (session w !! sync ≫= gecko_worktree) as [p2|]; simpl; [|eauto].
  destruct (bool_decide _); simpl; [|eauto]. by left.
Qed.

(** The loop either runs through without a comment or stops with one. *)
Lemma for_commits_comments config ww gw sync commits (w : World G) :
  let r := for_commits (translate_commit config ww gw sync) commits w in
  (r.1 = Ok true /\ bz_comments r.2 = bz_comments w)
  \/ (r.1 = Ok false /\ exists x, bz_comments r.2 = (bz_comments w ++ [x])%list).
Proof.
  intros r. subst r.
  destruct (translate_all config ww gw commits (ext w)) as [g'|] eqn:Hall.
  - destruct (for_commits_all config ww gw sync commits w g' Hall)
      as (w' & tr & Hrun & _ & _ & Hc & _).
    left. by rewrite Hrun.
  - destruct (translate_all_first_failure config ww gw commits (ext w) Hall)
      as (pre & ck & post & gk & e & -> & Hpre & Hk).
    destruct (for_commits_stops config ww gw sync pre ck post e w gk Hpre Hk)
      as (w' & tr & text & Hrun & Hc & _).
    right. rewrite Hrun. eauto.
Qed.

(** X7. The translator returns [False] exactly when it has posted a
    comment, and then it has posted one: a run that returns [True], or
    that stops at an assertion, posts none.  It files no bug and sets no
    component. *)
Theorem wpt_to_gecko_commits_comments config ww gw sync (w : World G) :
  let r := wpt_to_gecko_commits config ww gw sync w in
  bz_bugs r.2 = bz_bugs w
  /\ bz_components r.2 = bz_components w
  /\ (r.1 = Ok false -> exists x, bz_comments r.2 = (bz_comments w ++ [x])%list)
  /\ (r.1 <> Ok false -> bz_comments r.2 = bz_comments w).
Proof.
  intros r. subst r.
  assert (Hfiled : filed (wpt_to_gecko_commits config ww gw sync w).2 = filed w)
    by by apply (keeps_wpt_to_gecko_commits (filed (G := G))).
  injection Hfiled as Hbugs Hcomponents.
  split; [done|]. split; [done|].
  destruct (wpt_to_gecko_commits_cases config ww gw sync w) as [->|[e ->]].
  - destruct (for_commits_comments config ww gw sync
                (iter_commits ww "origin/master.." (ext w)) w) as [[Hr Hc]|[Hr Hc]].
    + split; [by rewrite Hr|done].
    + split; [done|]. by rewrite Hr.
  - by split.
Qed.

(** X8. When the branch checked out in the web-platform-tests worktree,
    or, that one matching, the branch checked out in the gecko worktree,
    is not the one named by the worktree path recorded on the sync, the
    translator raises [AssertionError] before looking at any commit and
    leaves the world as it found it. *)
Theorem wpt_to_gecko_commits_branch_mismatch config ww gw sync (w : World G)
    wpt_path :
  session w !! sync ≫= wpt_worktree = Some wpt_path ->
  active_branch_name ww (ext w) <> PyStr.basename wpt_path
  \/ (exists gecko_path,
         session w !! sync ≫= gecko_worktree = Some gecko_path
         /\ active_branch_name gw (ext w) <> PyStr.basename gecko_path) ->
  wpt_to_gecko_commits config ww gw sync w = (Raise EAssertionError, w).
Proof.
  intros Hw Hm. unfold wpt_to_gecko_commits.
  unfold bind, ask, sync_wpt_worktree, sync_gecko_worktree. simpl.
  rewrite Hw. simpl.
  destruct (decide (active_branch_name ww (ext w) = PyStr.basename wpt_path))
    as [Heq|Hne].
  - rewrite bool_decide_eq_true_2 by done. simpl.
    destruct Hm as [?|(gecko_path & Hg & Hgne)]; [done|].
    rewrite Hg. simpl. by rewrite bool_decide_eq_false_2.
  - by rewrite bool_decide_eq_false_2.
Qed.

Lemma tracker_outcome_same (w w' : World G) :
  tracker w' = tracker w -> tracker_outcome w w'.
Proof. intros [= Hb Hc Hk]. split; [done|]. left. split; [done|by left]. Qed.

Lemma tracker_outcome_transport (w w1 w' : World G) :
  tracker w1 = tracker w -> tracker_outcome w1 w' -> tracker_outcome w w'.
Proof. intros [= Hb Hc Hk]. unfold tracker_outcome. by rewrite Hb, Hc, Hk. Qed.

Lemma outcome_bind_keeps {A B} (m : M (G := G) A) (k : A -> M (G := G) B) :
  keeps tracker m ->
  (forall a w1, tracker_outcome w1 (k a w1).2) ->
  forall w, tracker_outcome w (bind m k w).2.
Proof.
  intros Hm Hk w. unfold bind. specialize (Hm w).
  destruct (m w) as [[a|e] w1]; simpl in *.
  - by apply (tracker_outcome_transport w w1).
  - by apply tracker_outcome_same.
Qed.

Lemma outcome_session_scope {A} (body : M (G := G) A) :
  (forall w, tracker_outcome w (body w).2) ->
  forall w, tracker_outcome w (session_scope body w).2.
Proof.
  intros Hbody w. unfold session_scope. specialize (Hbody w).
  destruct (body w) as [[a|e] w1]; simpl in *; [|done].
  by destruct (db_commit_ok (ext w1)).
Qed.

(** The end of a completed run: the manifest commit, the classification
    and the one [bz.set_component]. *)
Lemma outcome_report config gecko_work sync fs (w w' : World G) :
  w' = (bind (commit_manifest_update gecko_work)
          (fun _ =>
             bind (choose_bug_component config gecko_work fs default_component)
               (fun new_component =>
                  bind (sync_bug sync)
                    (fun b =>
                       bind (bz_set_component b (routing_args new_component))
                         (fun _ => ret PyNone)))) w).2 ->
  bz_bugs w' = bz_bugs w
  /\ bz_comments w' = bz_comments w
  /\ (bz_components w' = bz_components w
      \/ exists x, bz_components w' = (bz_components w ++ [x])%list).
Proof.
  intros Hw'. unfold bind at 1 in Hw'.
  assert (H1 : tracker (commit_manifest_update gecko_work w).2 = tracker w)
    by by apply (keeps_commit_manifest_update (tracker (G := G))).
  destruct (commit_manifest_update gecko_work w) as [[[]|e] w1]; simpl in *;
    injection H1 as Hb1 Hc1 Hk1; [|subst w'; by eauto].
  unfold bind at 1 in Hw'.
  assert (H2 : tracker (choose_bug_component config gecko_work fs
                          default_component w1).2 = tracker w1)
    by by apply (keeps_choose_bug_component (tracker (G := G))).
  destruct (choose_bug_component config gecko_work fs default_component w1)
    as [[new_component|e] w2]; simpl in *;
    injection H2 as Hb2 Hc2 Hk2; subst w'; simpl;
    [|split; [congruence|split; [congruence|left; congruence]]].
  split; [congruence|]. split; [congruence|]. right.
  eexists. by rewrite Hk2, Hk1.
Qed.

(** X6. One run of the orchestrator files no bug and does at most one
    thing to the tracker: it adds one comment, or it sets the component
    once, or it does neither; it never both comments and sets the
    component. *)
Theorem update_sync_tracker_outcome config gg gw sync (w : World G) :
  tracker_outcome w (update_sync config gg gw sync w).2.
Proof.
  unfold update_sync. revert w.
  apply outcome_bind_keeps; [by apply keeps_record_call|]. intros _.
  apply outcome_session_scope.
  apply outcome_bind_keeps.
  { unfold try_get_pr. apply keeps_try_except; [|by intros; apply keeps_ret].
    apply keeps_bind; [by apply keeps_get_pr|by intros; apply keeps_ret]. }
  intros [[wpt_work wpt_branch]|e].
  - apply outcome_bind_keeps; [by apply keeps_get_files_changed|]. intros fs.
    apply outcome_bind_keeps; [by apply keeps_logger|]. intros _.
    apply outcome_bind_keeps; [by apply keeps_git_cmd|]. intros _.
    apply outcome_bind_keeps; [by apply keeps_logger|]. intros _.
    apply outcome_bind_keeps; [by apply keeps_run_ensure_worktree|].
    intros [gecko_work gecko_branch].
    apply outcome_bind_keeps; [by apply keeps_git_cmd|]. intros _ w1.
    unfold bind at 1.
    assert (Hfiled : filed (wpt_to_gecko_commits config wpt_work gecko_work sync w1).2
                     = filed w1)
      by by apply (keeps_wpt_to_gecko_commits (filed (G := G))).
    injection Hfiled as Hbugs Hcomponents.
    destruct (wpt_to_gecko_commits_cases config wpt_work gecko_work sync w1)
      as [Hloop|[e Hraise]].
    + rewrite Hloop in Hbugs, Hcomponents |- *.
      destruct (for_commits_comments config wpt_work gecko_work sync
                  (iter_commits wpt_work "origin/master.." (ext w1)) w1)
        as [[Hr Hc]|[Hr Hc]];
        destruct (for_commits _ _ w1) as [r w2]; simpl in *; subst r; simpl.
      * destruct (outcome_report config gecko_work sync fs w2 _ eq_refl)
          as (Hb & Hcm & Hk).
        split; [congruence|].
        destruct Hk as [Hk|[x Hk]].
        -- left. split; [congruence|left; congruence].
        -- right. split; [congruence|]. exists x. congruence.
      * split; [done|]. left. split; [done|by right].
    + rewrite Hraise. simpl. by apply tracker_outcome_same.
  - intros w1. unfold bind, logger, sync_bug, bz_comment, ret. simpl.
    split; [done|]. left. split; [done|]. right. by eexists.
Qed.

End Tracker.

(** ** Intake followed by a status event *)

Section IntakeThenStatus.

Context {G : Type} `{!Collaborators G}.

(** The row a completed intake leaves for the pull request: no worktree
    yet, and the orchestrator not entered. *)
Lemma new_wpt_pr_fresh_row body (w : World G) :
  (new_wpt_pr body w).1 = Ok tt ->
  session (new_wpt_pr body w).2 !! number body ≫= wpt_worktree = None
  /\ invocations (new_wpt_pr body w).2 = invocations w.
Proof.
  unfold new_wpt_pr, bind, bz_new, session_scope, session_add, set_sync_bug. simpl.
  destruct (session w !! number body) as [old|] eqn:Hrow; simpl; [done|].
  destruct (db_commit_ok (ext w)); simpl; [|done]. intros _. split; [|done].
  by rewrite lookup_alter_eq, lookup_insert_eq.
Qed.

(** X9. After an intake that went through, the first pending status
    event of the recognized context for that pull request enters the
    orchestrator, once, whatever its sha: the row just created has no
    worktree. *)
Theorem status_after_intake_enters_orchestrator config gg gw body event
    (w : World G) :
  (new_wpt_pr body w).1 = Ok tt ->
  context event = "continuous-integration/travis-ci/pr" ->
  state event = "pending" ->
  invocations
    (status_changed config gg gw (number body) event (new_wpt_pr body w).2).2
  = S (invocations w).
Proof.
  intros Hok Hc Hs. destruct (new_wpt_pr_fresh_row body w Hok) as [Hrow Hinv].
  rewrite status_changed_stale_invocations; [by rewrite Hinv|done|done|].
  by rewrite Hrow.
Qed.

End IntakeThenStatus.

(** ** The affected tests *)

Section AffectedTests.

Context {G : Type} `{!TryCollaborators G}.

Lemma add_affected_members items : forall acc m,
  TryPush.add_affected items acc = Ok m ->
  forall t p,
    p ∈ default (∅ : gset string) (m !! t)
    <-> p ∈ default (∅ : gset string) (acc !! t)
        \/ exists item,
             item ∈ items
             /\ PyStr.split (String (ascii_of_nat 9) EmptyString) (PyStr.strip item)
                = [p; t].
Proof.
  induction items as [|item rest IH]; intros acc m; cbn [TryPush.add_affected].
  - intros [= <-] t p. split; [by left|]. intros [?|(item & Hin & _)]; [done|].
    by apply elem_of_nil in Hin.
  - destruct (PyStr.split _ (PyStr.strip item)) as [|path [|test_type [|? ?]]] eqn:Hp;
      try done.
    intros Hrun t p. rewrite (IH _ _ Hrun t p). split.
    + intros [Hacc|(item' & Hin & Hsplit)].
      * destruct (decide (test_type = t)) as [->|Hne].
        -- rewrite lookup_insert_eq in Hacc. simpl in Hacc.
           apply elem_of_union in Hacc as [Hacc|Hacc]; [by left|].
           apply elem_of_singleton in Hacc as ->.
           right. exists item. split; [left|done].
        -- rewrite lookup_insert_ne in Hacc by done. by left.
      * right. exists item'. split; [by right|done].
    + intros [Hacc|(item' & Hin & Hsplit)].
      * left. destruct (decide (test_type = t)) as [->|Hne].
        -- rewrite lookup_insert_eq. simpl. apply elem_of_union. by left.
        -- by rewrite lookup_insert_ne.
      * apply elem_of_cons in Hin as [->|Hin].
        -- left. rewrite Hp in Hsplit. injection Hsplit as -> ->.
           rewrite lookup_insert_eq. simpl. apply elem_of_union. right.
           by apply elem_of_singleton.
        -- right. by exists item'.
Qed.

Lemma add_affected_nonempty items : forall acc m,
  (forall t ps, acc !! t = Some ps -> ps <> (∅ : gset string)) ->
  TryPush.add_affected items acc = Ok m ->
  forall t ps, m !! t = Some ps -> ps <> ∅.
Proof.
  induction items as [|item rest IH]; intros acc m Hacc; cbn [TryPush.add_affected].
  - by intros [= <-].
  - destruct (PyStr.split _ (PyStr.strip item)) as [|path [|test_type [|? ?]]];
      try done.
    apply IH. intros t ps [[<- <-]|[_ Hl]]%lookup_insert_Some; [set_solver|].
    by apply (Hacc t).
Qed.

(** X10. When the tool prints nothing, or only white space,
    [get_affected_tests] does not return an empty mapping: the one empty
    line there is to read has not two fields, and the assertion on the
    pair fails. *)
Theorem get_affected_tests_blank_output path_to_wpt revish (w : World G) s :
  wpt_tests_affected path_to_wpt
    (["--show-type"; "--new"]
     ++ match revish with
        | Some r => if decide (r = "") then [] else [r]
        | None => []
        end)%list
    (wpt_manifest path_to_wpt (ext w)) = Some s ->
  PyStr.strip s = "" ->
  (TryPush.get_affected_tests path_to_wpt revish w).1 = Raise EAssertionError.
Proof.
  intros Hs Hblank. unfold TryPush.get_affected_tests, bind, ask, lift_result.
  simpl in Hs |- *. rewrite Hs, Hblank. reflexivity.
Qed.

(** X11. When [get_affected_tests] returns, a path is listed under a
    test type exactly when some line of the tool's output, stripped,
    is that path, a tab and that type; no type is listed with an empty
    set of paths; and when the tool gives [None] nothing is listed. *)
Theorem get_affected_tests_members path_to_wpt revish (w : World G) m :
  (TryPush.get_affected_tests path_to_wpt revish w).1 = Ok m ->
  (forall t ps, m !! t = Some ps -> ps <> ∅)
  /\ match wpt_tests_affected path_to_wpt
             (["--show-type"; "--new"]
              ++ match revish with
                 | Some r => if decide (r = "") then [] else [r]
                 | None => []
                 end)%list
             (wpt_manifest path_to_wpt (ext w)) with
     | None => m = ∅
     | Some s =>
         forall t p,
           p ∈ default (∅ : gset string) (m !! t)
           <-> exists item,
                 item ∈ PyStr.split PyStr.nl (PyStr.strip s)
                 /\ PyStr.split (String (ascii_of_nat 9) EmptyString)
                                (PyStr.strip item) = [p; t]
     end.
Proof.
  unfold TryPush.get_affected_tests, bind, ask, lift_result, ret. simpl.
  destruct (wpt_tests_affected _ _ _) as [s|]; simpl.
  - intros Hrun. split.
    + eapply add_affected_nonempty; [|exact Hrun].
      intros t ps. by rewrite lookup_empty.
    + intros t p. rewrite (add_affected_members _ _ _ Hrun t p).
      rewrite lookup_empty. simpl. split; [|by right].
      intros [Hempty|Hitem]; [by apply elem_of_empty in Hempty|done].
  - intros [= <-]. split; [|done]. intros t ps. by rewrite lookup_empty.
Qed.

End AffectedTests.

(** ** The try message *)

Section TryMessage.

Context `{!Iteration}.

Lemma test_type_suite_found t suite :
  TryPush.test_type_suite t = Found suite ->
  t = "testharness" \/ t = "reftest" \/ t = "wdspec".
Proof. unfold TryPush.test_type_suite. repeat case_decide; naive_solver. Qed.

Lemma test_type_suite_key_error t k :
  TryPush.test_type_suite t = KeyError k ->
  k = t /\ t <> "testharness" /\ t <> "reftest" /\ t <> "wdspec".
Proof. unfold TryPush.test_type_suite. repeat case_decide; naive_solver. Qed.

Lemma collect_try_data_key_error items : forall jobs prefixed k,
  TryPush.collect_try_data items jobs prefixed = KeyError k ->
  exists ps, (k, ps) ∈ items /\ TryPush.test_type_suite k = KeyError k.
Proof.
  induction items as [|[t ps] rest IH]; intros jobs prefixed k; simpl; [done|].
  destruct (TryPush.test_type_suite t) as [suite|k'] eqn:Ht.
  - intros (ps' & Hin & Hk)%IH. exists ps'. split; [by right|done].
  - intros [= ->]. destruct (test_type_suite_key_error _ _ Ht) as [-> _].
    exists ps. split; [left|done].
Qed.

Lemma collect_try_data_found items : forall jobs prefixed jobs' prefixed',
  TryPush.collect_try_data items jobs prefixed = Found (jobs', prefixed') ->
  (forall t ps, (t, ps) ∈ items -> exists suite, TryPush.test_type_suite t = Found suite)
  /\ jobs' = (jobs ++ (items ≫= jobs_for))%list
  /\ prefixed' ≡ₚ (prefixed ++ (items ≫= prefixed_for))%list.
Proof.
  induction items as [|[t ps] rest IH]; intros jobs prefixed jobs' prefixed'; simpl.
  - intros [= <- <-]. rewrite !app_nil_r. split; [|done].
    intros t ps Hin. by apply elem_of_nil in Hin.
  - destruct (TryPush.test_type_suite t) as [suite|k'] eqn:Ht; [|done].
    intros (Hknown & -> & Hperm)%IH. split; [|split].
    + intros t' ps' [[= -> ->]|Hin]%elem_of_cons; [by eauto|by eapply Hknown].
    + unfold jobs_for at 2. simpl. by rewrite Ht, app_assoc.
    + rewrite Hperm. unfold prefixed_for at 2. simpl. rewrite Ht.
      rewrite <- app_assoc. apply Permutation_app_head, Permutation_app; [|done].
      unfold TryPush.prefixed_of. by rewrite paths_iter_perm.
Qed.

(** X12. [construct_try_message] builds a message exactly when every
    test type of the mapping is one of testharness, reftest and wdspec.
    Any other type, even one with no path, ends it with [KeyError] on a
    type of the mapping. *)
Theorem construct_try_message_key_error (tests_by_type : gmap string (gset string)) :
  ((exists message, TryPush.construct_try_message tests_by_type = Found message)
   <-> forall t, is_Some (tests_by_type !! t) ->
                 t = "testharness" \/ t = "reftest" \/ t = "wdspec")
  /\ forall k,
       TryPush.construct_try_message tests_by_type = KeyError k ->
       is_Some (tests_by_type !! k)
       /\ k <> "testharness" /\ k <> "reftest" /\ k <> "wdspec".
Proof.
  unfold TryPush.construct_try_message, TryPush.try_data.
  assert (Hin : forall t ps, (t, ps) ∈ tests_items tests_by_type
                             <-> tests_by_type !! t = Some ps).
  { intros t ps. rewrite tests_items_perm. apply elem_of_map_to_list. }
  destruct (TryPush.collect_try_data _ [] []) as [[jobs prefixed]|k] eqn:Hrun.
  - apply collect_try_data_found in Hrun as (Hknown & _ & _). split.
    + split; [|by eauto]. intros _ t [ps Hps].
      destruct (Hknown t ps) as [suite Hsuite]; [by apply Hin|].
      by eapply test_type_suite_found.
    + done.
  - apply collect_try_data_key_error in Hrun as (ps & Hps & Hk).
    apply Hin in Hps. apply test_type_suite_key_error in Hk as (_ & ? & ? & ?).
    split.
    + split; [by intros [? ?]|]. intros Hall.
      destruct (Hall k) as [->|[->| ->]]; by eauto.
    + intros k' [= <-]. by eauto.
Qed.

Lemma jobs_for_expected item : jobs_for item = expected_jobs item.
Proof.
  destruct item as [t ps]. unfold jobs_for, expected_jobs, TryPush.test_type_suite,
    TryPush.jobs_of, TryPush.platform_suffix. simpl.
  destruct (decide (ps = ∅)) as [->|Hne].
  - rewrite size_empty. repeat case_decide; done.
  - assert (size ps <> 0%nat).
    { intros Hz%size_empty_inv. apply Hne. by apply leibniz_equiv. }
    repeat case_decide; simplify_eq; done.
Qed.

Lemma prefixed_for_expected item : prefixed_for item = expected_paths item.
Proof.
  destruct item as [t ps]. unfold prefixed_for, expected_paths,
    TryPush.test_type_suite. simpl.
  repeat case_decide; done.
Qed.

Lemma list_bind_pointwise {A B} (f g : A -> list B) l :
  (forall x, f x = g x) -> l ≫= f = l ≫= g.
Proof.
  intros Hfg. induction l as [|x l IH]; [done|].
  by rewrite !bind_cons, Hfg, IH.
Qed.

(** X13. When the loop of [construct_try_message] runs through, the
    prefixed paths it has collected are, in some order, one
    [suite:path] for every path of every type, and the jobs are, in some
    order, the two jobs of every type that has a path, with the platform
    list on those of the web-platform-tests suite only: both as written
    out in [expected_paths] and [expected_jobs]. *)
Theorem try_data_lists (tests_by_type : gmap string (gset string)) jobs prefixed :
  TryPush.try_data tests_by_type = Found (jobs, prefixed) ->
  jobs ≡ₚ map_to_list tests_by_type ≫= expected_jobs
  /\ prefixed ≡ₚ map_to_list tests_by_type ≫= expected_paths.
Proof.
  unfold TryPush.try_data. intros (_ & -> & Hperm)%collect_try_data_found.
  rewrite <- (list_bind_pointwise _ _ _ jobs_for_expected).
  rewrite <- (list_bind_pointwise _ _ _ prefixed_for_expected).
  split.
  - simpl. by rewrite tests_items_perm.
  - rewrite Hperm. simpl. by rewrite tests_items_perm.
Qed.

End TryMessage.

(** ** The push to try *)

Lemma take_hex_sound n : forall s r,
  RevRe.take_hex n s = Some r ->
  String.length r = n
  /\ Forall (fun c => RevRe.is_hex c = true) (list_ascii_of_string r)
  /\ exists b, s = r ++ b.
Proof.
  induction n as [|n IH]; intros s r; simpl.
  - intros [= <-]. repeat split; [constructor|by exists s].
  - destruct s as [|c s]; [done|].
    destruct (RevRe.is_hex c) eqn:Hc; [|done].
    destruct (RevRe.take_hex n s) as [r'|] eqn:Hr; [|done].
    intros [= <-]. destruct (IH s r' Hr) as (Hlen & Hhex & b & ->).
    simpl. repeat split; [by rewrite Hlen|by constructor|by exists b].
Qed.

Lemma take_hex_complete r : forall b,
  Forall (fun c => RevRe.is_hex c = true) (list_ascii_of_string r) ->
  RevRe.take_hex (String.length r) (r ++ b) = Some r.
Proof.
  induction r as [|c r IH]; intros b; simpl; [done|].
  intros [Hc Hr]%Forall_cons. by rewrite Hc, IH.
Qed.

Lemma drop_app a b : RevRe.drop (String.length a) (a ++ b) = b.
Proof. induction a as [|c a IH]; simpl; [by destruct b|done]. Qed.

Lemma startswith_app p s : PyStr.startswith p (p ++ s) = true.
Proof.
  induction p as [|a p IH]; [done|].
  change (PyStr.startswith (String a p) (String a (p ++ s)) = true).
  rewrite startswith_cons_cons. by destruct (decide (a = a)).
Qed.

Lemma match_here_sound s rev :
  RevRe.match_here s = Some rev ->
  String.length rev = 40%nat
  /\ Forall (fun c => RevRe.is_hex c = true) (list_ascii_of_string rev)
  /\ exists b, s = "revision=" ++ rev ++ b.
Proof.
  unfold RevRe.match_here.
  destruct (PyStr.startswith "revision=" s) eqn:Hs; [|done].
  intros (Hlen & Hhex & b & Hb)%take_hex_sound.
  repeat split; [done..|]. exists b.
  apply startswith_drop in Hs. rewrite <- Hs. f_equal. exact Hb.
Qed.

Lemma search_sound s : forall rev,
  RevRe.search s = Some rev ->
  String.length rev = 40%nat
  /\ Forall (fun c => RevRe.is_hex c = true) (list_ascii_of_string rev)
  /\ exists a b, s = a ++ "revision=" ++ rev ++ b.
Proof.
  induction s as [|c s IH]; intros rev; cbn [RevRe.search].
  - destruct (RevRe.match_here "") as [r|] eqn:Hm; [|done].
    intros [= <-]. destruct (match_here_sound _ _ Hm) as (? & ? & b & ?).
    repeat split; [done..|]. by exists "", b.
  - destruct (RevRe.match_here (String c s)) as [r|] eqn:Hm.
    + intros [= <-]. destruct (match_here_sound _ _ Hm) as (? & ? & b & ?).
      repeat split; [done..|]. by exists "", b.
    + intros (? & ? & a & b & ->)%IH. repeat split; [done..|].
      by exists (String c a), b.
Qed.

Lemma search_cons c s :
  RevRe.search (String c s)
  = match RevRe.match_here (String c s) with
    | Some rev => Some rev
    | None => RevRe.search s
    end.
Proof. reflexivity. Qed.

Lemma search_here s rev :
  RevRe.match_here s = Some rev -> RevRe.search s = Some rev.
Proof. intros H. destruct s; cbn [RevRe.search]; by rewrite H. Qed.

Lemma search_complete a : forall rev b,
  String.length rev = 40%nat ->
  Forall (fun c => RevRe.is_hex c = true) (list_ascii_of_string rev) ->
  is_Some (RevRe.search (a ++ "revision=" ++ rev ++ b)).
Proof.
  intros rev b Hlen Hhex.
  assert (Hhere : RevRe.match_here ("revision=" ++ rev ++ b) = Some rev).
  { unfold RevRe.match_here. rewrite startswith_app, <- Hlen.
    change 9%nat with (String.length "revision=").
    rewrite drop_app. by apply take_hex_complete. }
  induction a as [|c a IH].
  - change ("" ++ "revision=" ++ rev ++ b) with ("revision=" ++ rev ++ b).
    by rewrite (search_here _ _ Hhere).
  - change (String c a ++ "revision=" ++ rev ++ b)
      with (String c (a ++ "revision=" ++ rev ++ b)).
    rewrite search_cons.
    destruct (RevRe.match_here (String c _)); [by eexists|exact IH].
Qed.

Section PushToTry.

Context {G : Type} `{!TryCollaborators G}.

(** X14. [push_to_try] undoes its commit whatever the push does: once
    [git checkout] and [git commit] have gone through, the last command
    run is [git reset HEAD~], on the state the push left, whether the
    push raised or its output had no revision; an error of the reset is
    the error raised.  When the checkout or the commit raises, that
    error is raised and neither push nor reset is run. *)
Theorem push_to_try_resets git_work branch (w : World G) :
  let checkout := git_call git_work ["checkout"; branch] (ext w) in
  let commit :=
    git_call git_work ["commit"; "--allow-empty"; "-m"; TryPush.push_message]
             checkout.2 in
  let push := git_call git_work ["push"; "try"] commit.2 in
  let reset := git_call git_work ["reset"; "HEAD~"] push.2 in
  let r := TryPush.push_to_try git_work branch w in
  match checkout.1, commit.1 with
  | GitFailed e, _ => r.1 = Raise (EGitCommandError e) /\ ext r.2 = checkout.2
  | GitOk _, GitFailed e => r.1 = Raise (EGitCommandError e) /\ ext r.2 = commit.2
  | GitOk _, GitOk _ =>
      ext r.2 = reset.2
      /\ forall e, reset.1 = GitFailed e -> r.1 = Raise (EGitCommandError e)
  end.
Proof.
  intros checkout commit push reset r. subst r reset push commit checkout.
  unfold TryPush.push_to_try, TryPush.try_finally, bind, git_cmd, ret, raise.
  simpl.
  destruct (git_call git_work ["checkout"; branch] (ext w)) as [[o1|e1] g1];
    simpl; [|done].
  destruct (git_call git_work _ g1) as [[o2|e2] g2]; simpl; [|done].
  destruct (git_call git_work ["push"; "try"] g2) as [[[[status out] err]|e3] g3];
    simpl.
  - destruct (RevRe.search out); simpl;
      destruct (git_call git_work ["reset"; "HEAD~"] g3) as [[o4|e4] g4]; simpl;
      split; try done; by intros ? [= ->].
  - destruct (git_call git_work ["reset"; "HEAD~"] g3) as [[o4|e4] g4]; simpl;
      split; try done; by intros ? [= ->].
Qed.

(** X15. A URL returned by [push_to_try] is the treeherder prefix
    followed by forty characters of [0-9a-f] that stand right after
    [revision=] in what the push printed on stdout. *)
Theorem push_to_try_url git_work branch (w : World G) url :
  (TryPush.push_to_try git_work branch w).1 = Ok url ->
  let checkout := git_call git_work ["checkout"; branch] (ext w) in
  let commit :=
    git_call git_work ["commit"; "--allow-empty"; "-m"; TryPush.push_message]
             checkout.2 in
  let push := git_call git_work ["push"; "try"] commit.2 in
  exists rev status stdout stderr a b,
    url = "https://treeherder.mozilla.org/#/jobs?repo=try&revision=" ++ rev
    /\ String.length rev = 40%nat
    /\ Forall (fun c => RevRe.is_hex c = true) (list_ascii_of_string rev)
    /\ push.1 = GitOk (status, stdout, stderr)
    /\ stdout = a ++ "revision=" ++ rev ++ b.
Proof.
  intros Hrun checkout commit push. subst push commit checkout. revert Hrun.
  unfold TryPush.push_to_try, TryPush.try_finally, bind, git_cmd, ret, raise.
  simpl.
  destruct (git_call git_work ["checkout"; branch] (ext w)) as [[o1|e1] g1];
    simpl; [|done].
  destruct (git_call git_work _ g1) as [[o2|e2] g2]; simpl; [|done].
  destruct (git_call git_work ["push"; "try"] g2) as [[[[status out] err]|e3] g3];
    simpl.
  - destruct (RevRe.search out) as [rev|] eqn:Hrev; simpl;
      destruct (git_call git_work ["reset"; "HEAD~"] g3) as [[o4|e4] g4]; simpl;
      try done.
    intros [= <-]. destruct (search_sound _ _ Hrev) as (Hlen & Hhex & a & b & ->).
    by eexists rev, status, _, err, a, b.
  - by destruct (git_call git_work ["reset"; "HEAD~"] g3) as [[o4|e4] g4].
Qed.

(** X16. When the four git commands go through and the push prints
    [revision=] followed by forty characters of [0-9a-f] somewhere on
    stdout, [push_to_try] returns a URL. *)
Theorem push_to_try_finds_revision git_work branch (w : World G)
    o1 g1 o2 g2 status a rev b stderr g3 o4 g4 :
  git_call git_work ["checkout"; branch] (ext w) = (GitOk o1, g1) ->
  git_call git_work ["commit"; "--allow-empty"; "-m"; TryPush.push_message] g1
  = (GitOk o2, g2) ->
  git_call git_work ["push"; "try"] g2
  = (GitOk (status, a ++ "revision=" ++ rev ++ b, stderr), g3) ->
  git_call git_work ["reset"; "HEAD~"] g3 = (GitOk o4, g4) ->
  String.length rev = 40%nat ->
  Forall (fun c => RevRe.is_hex c = true) (list_ascii_of_string rev) ->
  exists url, (TryPush.push_to_try git_work branch w).1 = Ok url.
Proof.
  intros H1 H2 H3 H4 Hlen Hhex.
  unfold TryPush.push_to_try, TryPush.try_finally, bind, git_cmd, ret, raise.
  simpl. rewrite H1. simpl. rewrite H2. simpl. rewrite H3. simpl.
  destruct (search_complete a rev b Hlen Hhex) as [found ->]. simpl.
  rewrite H4. simpl. by eexists.
Qed.

End PushToTry.

(** ** The further properties on scripted collaborators *)

Import TryScripted.

Lemma choose_bug_component_never_unknown_witness :
  (choose_bug_component config gecko_work {[ "dom/a.html" ]} default_component
     (translating ambiguous)).1 = Ok (Split ["Core"; "DOM"])
  /\ PyStr.join " :: " ["Core"; "DOM"] <> "UNKNOWN".
Proof.
  assert (Hrun : (choose_bug_component config gecko_work {[ "dom/a.html" ]}
                    default_component (translating ambiguous)).1
                 = Ok (Split ["Core"; "DOM"])) by (vm_compute; reflexivity).
  split; [exact Hrun|].
  exact (proj1 (choose_bug_component_never_unknown config gecko_work
                  {[ "dom/a.html" ]} default_component (translating ambiguous)
                  ["Core"; "DOM"] Hrun)).
Defined.

Lemma count_components_counts_every_detail_line_witness :
  count_components (PyStr.split PyStr.nl unknown_report) ∅ None = Ok unknown_and_dom
  /\ total_count unknown_and_dom = detail_lines (PyStr.split PyStr.nl unknown_report).
Proof.
  assert (Hrun : count_components (PyStr.split PyStr.nl unknown_report) ∅ None
                 = Ok unknown_and_dom) by (vm_compute; reflexivity).
  split; [exact Hrun|].
  exact (count_components_counts_every_detail_line _ _ Hrun).
Defined.

Lemma count_components_keys_are_headers_witness :
  count_components (PyStr.split PyStr.nl unknown_report) ∅ None = Ok unknown_and_dom
  /\ unknown_and_dom !! "Core :: DOM" = Some 2%nat
  /\ exists h, h ∈ PyStr.split PyStr.nl unknown_report
               /\ PyStr.startswith " " h = false
               /\ "Core :: DOM" = PyStr.strip h.
Proof.
  assert (Hrun : count_components (PyStr.split PyStr.nl unknown_report) ∅ None
                 = Ok unknown_and_dom) by (vm_compute; reflexivity).
  assert (Hkey : unknown_and_dom !! "Core :: DOM" = Some 2%nat)
    by (vm_compute; reflexivity).
  split; [exact Hrun|]. split; [exact Hkey|].
  exact (proj2 (count_components_keys_are_headers _ _ _ _ Hrun Hkey)).
Defined.

Lemma update_sync_false_only_from_get_pr_witness :
  (update_sync config GitGecko GitWpt 9 (world_of offline)).1 = Ok (PyBool false)
  /\ exists e w',
       get_pr config GitWpt 9 (record_call (CallUpdateSync 9) (world_of offline)).2
       = (Raise (EGitCommandError e), w').
Proof.
  assert (Hrun : (update_sync config GitGecko GitWpt 9 (world_of offline)).1
                 = Ok (PyBool false)) by (vm_compute; reflexivity).
  split; [exact Hrun|].
  exact (proj2 (update_sync_false_only_from_get_pr config GitGecko GitWpt 9
                  (world_of offline) false Hrun)).
Defined.

Lemma update_sync_fetch_failure_witness :
  (update_sync config GitGecko GitWpt 9 (world_of offline)).1 = Ok (PyBool false).
Proof.
  assert (Hget : exists w1,
             get_pr config GitWpt 9
                    (record_call (CallUpdateSync 9) (world_of offline)).2
             = (Raise (EGitCommandError fetch_error), w1)
             /\ db_commit_ok (ext w1) = true).
  { eexists. split; vm_compute; reflexivity. }
  destruct Hget as (w1 & Hget & Hok).
  exact (proj1 (update_sync_fetch_failure config GitGecko GitWpt 9
                  (world_of offline) w1 fetch_error Hget Hok)).
Defined.

Lemma wpt_to_gecko_commits_branch_mismatch_witness :
  wpt_to_gecko_commits config (Worktree "/elsewhere/other") gecko_work 9
                       (translating healthy)
  = (Raise EAssertionError, translating healthy).
Proof.
  apply (wpt_to_gecko_commits_branch_mismatch config (Worktree "/elsewhere/other")
           gecko_work 9 (translating healthy) "/worktrees/web-platform-tests/PR_9").
  - vm_compute. reflexivity.
  - left. intros H. vm_compute in H. discriminate H.
Defined.

Lemma status_after_intake_enters_orchestrator_witness :
  invocations
    (status_changed config GitGecko GitWpt 9 pending9
       (new_wpt_pr pr9 (blank_world healthy)).2).2
  = 1%nat.
Proof.
  apply (status_after_intake_enters_orchestrator config GitGecko GitWpt pr9
           pending9 (blank_world healthy)); reflexivity.
Defined.

Lemma get_affected_tests_blank_output_witness :
  (TryPush.get_affected_tests "/worktrees/web-platform-tests/PR_9" None
     (world silent)).1
  = Raise EAssertionError.
Proof.
  apply (get_affected_tests_blank_output "/worktrees/web-platform-tests/PR_9"
           None (world silent) ""); reflexivity.
Defined.

Lemma get_affected_tests_members_witness :
  (TryPush.get_affected_tests "/worktrees/web-platform-tests/PR_9" None
     (world reporting)).1 = Ok by_type
  /\ forall t ps, by_type !! t = Some ps -> ps <> ∅.
Proof.
  assert (Hrun : (TryPush.get_affected_tests "/worktrees/web-platform-tests/PR_9"
                    None (world reporting)).1 = Ok by_type)
    by (vm_compute; reflexivity).
  split; [exact Hrun|].
  exact (proj1 (get_affected_tests_members _ _ _ _ Hrun)).
Defined.

Lemma try_data_lists_witness :
  exists jobs prefixed,
    TryPush.try_data by_type = Found (jobs, prefixed)
    /\ jobs ≡ₚ map_to_list by_type ≫= expected_jobs
    /\ prefixed ≡ₚ map_to_list by_type ≫= expected_paths.
Proof.
  assert (Hrun : exists jobs prefixed,
             TryPush.try_data by_type = Found (jobs, prefixed)).
  { eexists _, _. vm_compute. reflexivity. }
  destruct Hrun as (jobs & prefixed & Hrun). exists jobs, prefixed.
  split; [exact Hrun|]. exact (try_data_lists _ _ _ Hrun).
Defined.

Lemma push_to_try_url_witness :
  (TryPush.push_to_try gecko_work "PR_9" (world reporting)).1
  = Ok ("https://treeherder.mozilla.org/#/jobs?repo=try&revision=" ++ revision)
  /\ exists rev,
       "https://treeherder.mozilla.org/#/jobs?repo=try&revision=" ++ revision
       = "https://treeherder.mozilla.org/#/jobs?repo=try&revision=" ++ rev
       /\ String.length rev = 40%nat.
Proof.
  assert (Hrun : (TryPush.push_to_try gecko_work "PR_9" (world reporting)).1
                 = Ok ("https://treeherder.mozilla.org/#/jobs?repo=try&revision="
                       ++ revision)) by (vm_compute; reflexivity).
  split; [exact Hrun|].
  destruct (push_to_try_url gecko_work "PR_9" (world reporting) _ Hrun)
    as (rev & _ & _ & _ & _ & _ & Hurl & Hlen & _).
  exists rev. split; [exact Hurl|exact Hlen].
Defined.

Lemma push_to_try_finds_revision_witness :
  exists url, (TryPush.push_to_try gecko_work "PR_9" (world reporting)).1 = Ok url.
Proof.
  apply (push_to_try_finds_revision gecko_work "PR_9" (world reporting)
           (0%Z, "", "") (ran reporting [checkout_cmd])
           (0%Z, "", "") (ran reporting [checkout_cmd; commit_cmd])
           0%Z "remote: " revision PyStr.nl ""
           (ran reporting [checkout_cmd; commit_cmd; push_cmd])
           (0%Z, "", "")
           (ran reporting [checkout_cmd; commit_cmd; push_cmd; reset_cmd])).
  - reflexivity.
  - reflexivity.
  - reflexivity.
  - reflexivity.
  - reflexivity.
  - apply (bool_decide_unpack _). vm_compute. exact I.
Defined.
